(** * Predictive monitoring levels (cmk/base/prediction.py)

    A shallow embedding of the predictive-levels engine of Checkmk and the
    proofs of the properties its specification states.

    - Python [int] is [Z]; [%] on [int] is floored, which is [Z.modulo].
    - Python [float] is IEEE 754 binary64, which is Rocq's primitive [float].
    - Python exceptions are the [Raise] branch of the [Result] monad.
    - Code of [cmk.utils.prediction], [cmk.utils.defines], [cmk.utils.store],
      [time] and [json] is not part of the embedded file; what the embedded
      functions need of it is a field of the classes [LocalTime] and
      [Collaborators].
    - The power [**] of two floats is the [pow] of the C library, which differs
      from one platform to the next; it is a field of the class [Libm]. *)

From Stdlib Require Import ZArith List String Bool Lia QArith Sorted.
From Stdlib Require Import DecimalString.
From Stdlib Require Import Floats Uint63.
From stdpp Require Import base gmap strings.

Import ListNotations.
Set Warnings "-register-all".
Local Open Scope string_scope.
Local Open Scope list_scope.
Local Open Scope Z_scope.

(** ** Python values, as far as configuration parameters use them *)

Inductive pyval : Type :=
| PNone
| PBool (b : bool)
| PInt (z : Z)
| PFloat (f : float)
| PStr (s : string)
| PTuple (items : list pyval)
| PList (items : list pyval)
| PDict (entries : list (string * pyval)).

(** ** Exceptions and the result monad *)

Inductive exn : Type :=
| KeyError (key : pyval)
| IndexError
| TypeError
| ValueError
| ZeroDivisionError
| OverflowError
| MKGeneralException (msg : string).

Inductive Result (A : Type) : Type :=
| Ok (a : A)
| Raise (e : exn).

Arguments Ok {A} a.
Arguments Raise {A} e.

#[export] Instance result_ret : MRet Result := @Ok.

#[export] Instance result_bind : MBind Result := fun A B k r =>
  match r with
  | Ok a => k a
  | Raise e => Raise e
  end.

(** ** Python built-ins used by the module *)

(** [l[i]], negative indices counting from the end. *)
Definition py_index {A} (l : list A) (i : Z) : Result A :=
  let n := Z.of_nat (length l) in
  let j := if i <? 0 then i + n else i in
  if (j <? 0) || (n <=? j) then Raise IndexError
  else match nth_error l (Z.to_nat j) with
       | Some x => Ok x
       | None => Raise IndexError
       end.

(** [range(start, stop, step)]: the length is computed as CPython does. *)
Definition range_len (lo hi step : Z) : Z :=
  if lo <? hi then (hi - lo - 1) / step + 1 else 0.

Definition py_range (start stop step : Z) : Result (list Z) :=
  if step =? 0 then Raise ValueError
  else
    let n := if 0 <? step then range_len start stop step
             else range_len stop start (- step) in
    Ok (map (fun i => start + Z.of_nat i * step) (seq 0 (Z.to_nat n))).

(** [str(n)] for an [int]. *)
Definition py_str_int (n : Z) : string :=
  NilZero.string_of_int (Z.to_int n).

(** ** Types of the module *)

Definition Timestamp := Z.
Definition Seconds := Z.
Definition Timegroup := string.
Definition _TimeSlices := list (Timestamp * Timestamp).

Record _PeriodInfo : Type := Build_PeriodInfo {
  slice : Z;
  groupby : Timestamp -> Result (Timegroup * Timestamp);
  valid : Z
}.

(** ** Local time *)

(** The two fields of [time.struct_time] the module reads. *)
Record struct_time : Type := { tm_wday : Z; tm_mday : Z }.

(** [cmk.utils.prediction.timezone_at], [time.localtime] and
    [cmk.utils.defines.weekday_ids] are taken as parameters. [time.localtime]
    documents [tm_wday] in the range [0, 6], and [weekday_ids()] has one name
    per weekday. *)
Class LocalTime : Type := {
  timezone_at : Timestamp -> Z;
  localtime : Timestamp -> struct_time;
  weekday_ids : list Timegroup;
  tm_wday_range :
    forall t, 0 <= tm_wday (localtime t) < Z.of_nat (length weekday_ids)
}.

Section Resolver.
Context `{LT : LocalTime}.

Definition _window_start (timestamp span : Z) : Result Z :=
  if span =? 0 then Raise ZeroDivisionError
  else Ok ((timestamp - timezone_at timestamp) mod span).

Definition _group_by_wday (t : Timestamp) : Result (Timegroup * Timestamp) :=
  let wday := tm_wday (localtime t) in
  name ← py_index weekday_ids wday;
  off ← _window_start t 86400;
  Ok (name, off).

Definition _group_by_day (t : Timestamp) : Result (Timegroup * Timestamp) :=
  off ← _window_start t 86400;
  Ok ("everyday", off).

Definition _group_by_day_of_month (t : Timestamp)
  : Result (Timegroup * Timestamp) :=
  let mday := tm_mday (localtime t) in
  off ← _window_start t 86400;
  Ok (py_str_int mday, off).

Definition _group_by_everyhour (t : Timestamp)
  : Result (Timegroup * Timestamp) :=
  off ← _window_start t 3600;
  Ok ("everyhour", off).

Definition _PREDICTION_PERIODS : gmap string _PeriodInfo :=
  <["wday" := Build_PeriodInfo 86400 _group_by_wday 7]>
  (<["day" := Build_PeriodInfo 86400 _group_by_day_of_month 28]>
  (<["hour" := Build_PeriodInfo 86400 _group_by_day 1]>
  (<["minute" := Build_PeriodInfo 3600 _group_by_everyhour 24]> ∅))).

Definition _get_prediction_timegroup (t : Timestamp) (period_info : _PeriodInfo)
  : Result (Timegroup * Timestamp * Timestamp * Seconds) :=
  '(timegroup, rel_time) ← groupby period_info t;
  let from_time := t - rel_time in
  let until_time := from_time + slice period_info in
  Ok (timegroup, from_time, until_time, rel_time).

(** The body of the [for] loop of [_time_slices], run over the values of the
    range; [slices] is the list built so far. *)
Fixpoint _time_slices_loop (period_info : _PeriodInfo) (timegroup : Timegroup)
    (begins : list Z) (slices : _TimeSlices) : Result _TimeSlices :=
  match begins with
  | [] => Ok slices
  | begin :: rest =>
      '(tg, start, end_, _) ← _get_prediction_timegroup begin period_info;
      _time_slices_loop period_info timegroup rest
        (if String.eqb tg timegroup then slices ++ [(start, end_)] else slices)
  end.

Definition _time_slices (timestamp : Timestamp) (horizon : Seconds)
    (period_info : _PeriodInfo) (timegroup : Timegroup) : Result _TimeSlices :=
  let abs_begin := timestamp - horizon in
  begins ← py_range timestamp abs_begin (- slice period_info);
  _time_slices_loop period_info timegroup begins [].

End Resolver.

(** ** Float arithmetic as Python performs it *)

Definition TimeSeriesValues := list (option float).
Definition _DataStat := list (option float).
Definition _DataStats := list _DataStat.

(** [float(k)] for an [int] of any size: the nearest binary64 value, ties to
    even. From [2^1024] on the value is infinite, where Python raises
    [OverflowError]; the module converts the lengths of lists and the literal
    [86400] only. *)
Definition py_float (k : Z) : float :=
  SF2Prim (binary_normalize prec emax k 0 false).

(** [pow] of the C library at the exponent [2.0], for a finite base above
    zero: the value returned, and whether [errno] is [ERANGE] after the call
    (the C standard allows no other error for such arguments). How the value is
    rounded is up to the library. A result that overflows is [HUGE_VAL], which
    is infinity in binary64 (ISO C, 7.12.1), and the square of a base from
    [2^512] on overflows. *)
Class Libm : Type := {
  pow_2 : float -> float * bool;
  pow_2_overflow :
    forall x, (0x1p512 <=? x)%float = true -> fst (pow_2 x) = infinity
}.

Section Statistics.
Context `{LM : Libm}.

(** [x ** 2] for a [float], as [float_pow] of CPython computes it at the
    exponent [2.0]. NaN is returned as it is, an infinity gives infinity and a
    zero gives zero; the sign of a negative base is dropped, the exponent being
    even; [1.0] gives [1.0]; every other base goes to [pow] of the C library.
    [OverflowError] is raised when the result is infinite, or when [errno] is
    [ERANGE] and the result is not zero. *)
Definition py_pow2 (x : float) : Result float :=
  if PrimFloat.is_nan x then Ok x
  else if PrimFloat.is_infinity x then Ok (PrimFloat.abs x)
  else if (x =? 0)%float then Ok 0%float
  else
    let iv := if (x <? 0)%float then (- x)%float else x in
    if (iv =? 1)%float then Ok 1%float
    else
      let '(ix, erange) := pow_2 iv in
      let errno :=
        if erange then negb (ix =? 0)%float else PrimFloat.is_infinity ix in
      if errno then Raise OverflowError else Ok ix.

(** [x / float(k)]: a float division raises [ZeroDivisionError] on a zero
    divisor, and [float(k)] is zero exactly when [k] is. *)
Definition py_div_int (x : float) (k : Z) : Result float :=
  if k =? 0 then Raise ZeroDivisionError else Ok (x / py_float k)%float.

(** [sum(xs)] starts from the [int] 0 and adds from the left. *)
Definition py_sum (xs : list float) : float :=
  fold_left PrimFloat.add xs 0%float.

(** [sum(p**2 for p in point_line)]: the generator raises at the first square
    that overflows. *)
Fixpoint py_sum_squares (acc : float) (point_line : list float) : Result float :=
  match point_line with
  | [] => Ok acc
  | p :: rest => sq ← py_pow2 p; py_sum_squares (acc + sq)%float rest
  end.

(** [min(xs)] and [max(xs)] keep the first extreme item, comparing with [<]
    and [>]. *)
Definition py_min (xs : list float) : Result float :=
  match xs with
  | [] => Raise ValueError
  | x :: rest =>
      Ok (fold_left (fun cur item => if (item <? cur)%float then item else cur) rest x)
  end.

Definition py_max (xs : list float) : Result float :=
  match xs with
  | [] => Raise ValueError
  | x :: rest =>
      Ok (fold_left (fun cur item => if (cur <? item)%float then item else cur) rest x)
  end.

(** [math.sqrt] raises [ValueError] on a negative argument. *)
Definition math_sqrt (x : float) : Result float :=
  if (x <? 0)%float then Raise ValueError else Ok (PrimFloat.sqrt x).

(** ** Statistics *)

Definition _std_dev (point_line : list float) (average : float) : Result float :=
  let samples := Z.of_nat (length point_line) in
  if samples =? 1 then Ok (PrimFloat.abs average)
  else
    squares ← py_sum_squares 0%float point_line;
    avg2 ← py_pow2 average;
    q ← py_div_int (PrimFloat.abs (squares - avg2 * py_float samples)%float)
          (samples - 1);
    math_sqrt q.

(** [zip] of the unpacked [slices]: one column per index present in every
    series. *)
Definition zip_star {A} (d : A) (slices : list (list A)) : list (list A) :=
  match slices with
  | [] => []
  | s :: rest =>
      let n := fold_left (fun m t => Nat.min m (length t)) rest (length s) in
      map (fun i => map (fun t => nth i t d) slices) (seq 0 n)
  end.

(** [[x for x in time_column if x is not None]] *)
Definition defined_values (time_column : list (option float)) : list float :=
  omap id time_column.

(** One turn of the loop of [_data_stats]: the entry appended for a column. *)
Definition _data_stats_column (time_column : list (option float))
  : Result _DataStat :=
  let point_line := defined_values time_column in
  match point_line with
  | _ :: _ =>
      average ← py_div_int (py_sum point_line) (Z.of_nat (length point_line));
      lo ← py_min point_line;
      hi ← py_max point_line;
      sd ← _std_dev point_line average;
      Ok [Some average; Some lo; Some hi; Some sd]
  | [] => Ok [None; None; None; None]
  end.

Fixpoint _data_stats_loop (columns : list (list (option float)))
    (descriptors : _DataStats) : Result _DataStats :=
  match columns with
  | [] => Ok descriptors
  | time_column :: rest =>
      d ← _data_stats_column time_column;
      _data_stats_loop rest (descriptors ++ [d])
  end.

Definition _data_stats (slices : list TimeSeriesValues) : Result _DataStats :=
  _data_stats_loop (zip_star None slices) [].

End Statistics.

(** ** Resampling and the prediction summary *)

Definition TimeWindow : Type := Timestamp * Timestamp * Seconds.

(** [cmk.utils.prediction.TimeSeries]: the native [(start, end, step)] of a
    fetched series and its values. *)
Record TimeSeries : Type := {
  twindow : TimeWindow;
  values : TimeSeriesValues
}.

Definition RRDColumnFunction : Type := Timestamp -> Timestamp -> TimeSeries.

Record _PredictionData : Type := {
  columns : list string;
  points : _DataStats;
  num_points : Z;
  data_twindow : list Timestamp;
  step : Seconds
}.

Definition HostName := string.
Definition ServiceName := string.
Definition MetricName := string.
Definition ConsolidationFunctionName := string.

(** [cmk.utils.prediction.PredictionInfo], the metadata stored beside a
    summary; [info_params] is absent in files written without it. *)
Record PredictionInfo : Type := {
  info_time : Timestamp;
  info_range : Timestamp * Timestamp;
  info_cf : ConsolidationFunctionName;
  info_dsname : MetricName;
  info_slice : Z;
  info_params : option pyval
}.

(** The collaborators of the module: the prediction store on disk, the RRD
    database and the level estimator. [FS] is the state of the store; reading
    the RRD database is a lookup that changes nothing. *)
Class Collaborators : Type := {
  FS : Type;
  EstimatedLevels : Type;
  predictions_dir : HostName -> ServiceName -> MetricName -> string;
  makedirs : string -> FS -> FS;
  clean_prediction_files : string -> bool -> FS -> FS;
  retrieve_info_for_prediction : string -> Timegroup -> FS -> option PredictionInfo;
  retrieve_data_for_prediction : string -> Timegroup -> FS -> option _PredictionData;
  json_dump_info : string -> PredictionInfo -> FS -> FS;
  json_dump_data : string -> _PredictionData -> FS -> FS;
  rrd_datacolum : HostName -> ServiceName -> MetricName
                  -> ConsolidationFunctionName -> RRDColumnFunction;
  bfill_upsample : TimeSeries -> TimeWindow -> Seconds -> TimeSeriesValues;
  estimate_levels : option float -> option float -> pyval -> pyval -> pyval
                    -> float -> EstimatedLevels
}.

Section Resampler.
Context `{CO : Collaborators} `{LM : Libm}.

Definition _retrieve_grouped_data_from_rrd (rrd_column : RRDColumnFunction)
    (time_windows : _TimeSlices)
  : Result (TimeWindow * list TimeSeriesValues) :=
  first ← py_index time_windows 0;
  let from_time := fst first in
  let slices :=
    map (fun w : Timestamp * Timestamp =>
           let '(start, end_) := w in (rrd_column start end_, from_time - start))
      time_windows in
  youngest ← py_index slices 0;
  let twindow := twindow (fst youngest) in
  if snd twindow =? 0 then Raise (MKGeneralException "Got no historic metrics")
  else
    Ok (twindow,
        map (fun sl : TimeSeries * Seconds =>
               let '(ts, shift) := sl in bfill_upsample ts twindow shift)
          slices).

Definition _calculate_data_for_prediction (time_windows : _TimeSlices)
    (rrd_datacolumn : RRDColumnFunction) : Result _PredictionData :=
  '(twindow, slices) ← _retrieve_grouped_data_from_rrd rrd_datacolumn time_windows;
  descriptors ← _data_stats slices;
  Ok {| columns := ["average"; "min"; "max"; "stdev"];
        points := descriptors;
        num_points := Z.of_nat (length descriptors);
        data_twindow := [fst (fst twindow); snd (fst twindow)];
        step := snd twindow |}.

End Resampler.

(** ** Configuration parameters *)

Definition _PredictionParameters := list (string * pyval).

Fixpoint assoc (key : string) (entries : list (string * pyval)) : option pyval :=
  match entries with
  | [] => None
  | (k, v) :: rest => if String.eqb k key then Some v else assoc key rest
  end.

(** [d[key]] and [d.get(key)] on a dict with string keys. *)
Definition py_getitem (d : _PredictionParameters) (key : string) : Result pyval :=
  match assoc key d with
  | Some v => Ok v
  | None => Raise (KeyError (PStr key))
  end.

Definition py_get (d : _PredictionParameters) (key : string) : pyval :=
  match assoc key d with
  | Some v => v
  | None => PNone
  end.

(** Lists and dicts cannot be hashed, nor can a tuple that holds one. *)
Fixpoint py_hashable (v : pyval) : bool :=
  match v with
  | PList _ | PDict _ => false
  | PTuple items => forallb py_hashable items
  | _ => true
  end.

(** [json.loads(json.dumps(v))]: a tuple comes back as a list. *)
Fixpoint jsonize (v : pyval) : pyval :=
  match v with
  | PTuple items => PList (map jsonize items)
  | PList items => PList (map jsonize items)
  | PDict entries => PDict (map (fun kv => (fst kv, jsonize (snd kv))) entries)
  | _ => v
  end.

(** [f == z] for a float and an int compares the exact values. *)
Definition float_eq_int (f : float) (z : Z) : bool :=
  match Prim2SF f with
  | S754_zero _ => z =? 0
  | S754_finite s m e =>
      let v := cond_Zopp s (Z.pos m) in
      if 0 <=? e then z =? v * 2 ^ e else z * 2 ^ (- e) =? v
  | _ => false
  end.

Definition py_number (v : pyval) : option (Z + float) :=
  match v with
  | PBool b => Some (inl (if b then 1 else 0))
  | PInt z => Some (inl z)
  | PFloat f => Some (inr f)
  | _ => None
  end.

Definition number_eq (a b : Z + float) : bool :=
  match a, b with
  | inl x, inl y => x =? y
  | inr f, inr g => (f =? g)%float
  | inl x, inr f | inr f, inl x => float_eq_int f x
  end.

(** [a is b] for two values that [json.loads] returned. The decoder has one
    NaN object and hands it out for every [NaN] it reads, so two NaN are the
    same object; other objects that are shared are equal as well. *)
Definition py_is (a b : pyval) : bool :=
  match a, b with
  | PFloat f, PFloat g => PrimFloat.is_nan f && PrimFloat.is_nan g
  | _, _ => false
  end.

(** [a == b] for two values that [json.loads] returned: numbers by value,
    sequences item by item, dicts key by key whatever the order of the
    entries. The items of a sequence and the values of a dict are equal when
    they are the same object or compare equal, identity first, so a NaN inside
    a list or a dict equals the NaN at the same place of the other. *)
Fixpoint py_eq (a b : pyval) {struct a} : bool :=
  let fix items_eq (xs ys : list pyval) {struct xs} : bool :=
    match xs, ys with
    | [], [] => true
    | x :: xs', y :: ys' => (py_is x y || py_eq x y) && items_eq xs' ys'
    | _, _ => false
    end in
  let fix entries_in (d e : list (string * pyval)) {struct d} : bool :=
    match d with
    | [] => true
    | (k, v) :: d' =>
        match assoc k e with
        | Some w => py_is v w || py_eq v w
        | None => false
        end && entries_in d' e
    end in
  match a, b with
  | PNone, PNone => true
  | PStr s, PStr t => String.eqb s t
  | PTuple xs, PTuple ys => items_eq xs ys
  | PList xs, PList ys => items_eq xs ys
  | PDict d, PDict e => Nat.eqb (length d) (length e) && entries_in d e
  | _, _ =>
      match py_number a, py_number b with
      | Some x, Some y => number_eq x y
      | _, _ => false
      end
  end.

(** [int(x)] for a float truncates toward zero. *)
Definition py_int_float (x : float) : Result Z :=
  match Prim2SF x with
  | S754_zero _ => Ok 0
  | S754_finite s m e =>
      Ok (cond_Zopp s (if 0 <=? e then Z.pos m * 2 ^ e
                       else Z.pos m / 2 ^ (- e)))
  | S754_infinity _ => Raise OverflowError
  | S754_nan => Raise ValueError
  end.

(** [int(params["horizon"] * 86400)]. A sequence is repeated by [*] and then
    refused by [int]; so is a string, which is longer than [int] parses. *)
Definition horizon_seconds (horizon : pyval) : Result Seconds :=
  match horizon with
  | PInt z => Ok (z * 86400)
  | PBool b => Ok ((if b then 1 else 0) * 86400)
  | PFloat f => py_int_float (f * py_float 86400)%float
  | PStr _ => Raise ValueError
  | PNone | PTuple _ | PList _ | PDict _ => Raise TypeError
  end.

(** [a / b] for two [int] of any size: the quotient of the integers, rounded
    once to the nearest float, ties to even. A zero divisor raises
    [ZeroDivisionError], and a quotient out of the range of a float
    [OverflowError]. *)
Definition py_truediv (a b : Z) : Result float :=
  if b =? 0 then Raise ZeroDivisionError
  else if a =? 0 then Ok (if b <? 0 then (- 0)%float else 0%float)
  else
    let '(m, e, l) := SFdiv_core_binary prec emax (Z.abs a) 0 (Z.abs b) 0 in
    let q :=
      SF2Prim (binary_round_aux prec emax (xorb (a <? 0) (b <? 0)) m e l) in
    if PrimFloat.is_infinity q then Raise OverflowError else Ok q.

(** [int(a / b)] for two [int]: the true quotient as a float, truncated. *)
Definition py_int_truediv (a b : Z) : Result Z :=
  q ← py_truediv a b;
  py_int_float q.

(** [dict(zip(keys, vals))[key]]: the last entry of a key is the one kept. *)
Fixpoint zip_lookup {A} (key : string) (keys : list string) (vals : list A)
    (found : option A) : option A :=
  match keys, vals with
  | k :: keys', v :: vals' =>
      zip_lookup key keys' vals' (if String.eqb k key then Some v else found)
  | _, _ => found
  end.

Definition reference_getitem {A} (keys : list string) (vals : list A)
    (key : string) : Result A :=
  match zip_lookup key keys vals None with
  | Some v => Ok v
  | None => Raise (KeyError (PStr key))
  end.

(** [os.path.join(a, b)] on POSIX. *)
Definition os_path_join (a b : string) : string :=
  if String.prefix "/" b then b
  else if String.eqb a "" || String.eqb (substring (String.length a - 1) 1 a) "/"
       then a ++ b
       else a ++ "/" ++ b.

(** [int(x)] for the reading of the clock, truncating toward zero. *)
Definition py_int_Q (x : Q) : Z := Z.quot (Qnum x) (Z.pos (Qden x)).

(** ** The prediction cache and the entry point *)

Inductive Event : Type :=
| EvMakedirs (path : string)
| EvClean (pred_file : string) (force : bool)
| EvRetrieve (path : string) (timegroup : Timegroup)
| EvWrite (path : string).

Section Cache.
Context `{LT : LocalTime} `{CO : Collaborators} `{LM : Libm}.

(** The state a call runs in: the store, the reading of [time.time()], and the
    accesses to the store made so far, oldest first. The clock stands still
    during a call. *)
Record World : Type := {
  fs : FS;
  clock : Q;
  trace : list Event
}.

(** A computation that reads and changes the world and may raise; what it did
    before raising stays done. *)
Definition IO (A : Type) : Type := World -> Result A * World.

#[export] Instance io_ret : MRet IO := fun A a w => (Ok a, w).

#[export] Instance io_bind : MBind IO := fun A B k m w =>
  match m w with
  | (Ok a, w') => k a w'
  | (Raise e, w') => (Raise e, w')
  end.

Definition lift {A} (r : Result A) : IO A := fun w => (r, w).

Definition time_time : IO Q := fun w => (Ok (clock w), w).

(** An access that changes the store. Accesses are followed where they
    succeed: an [OSError], or a value that [json.dump] refuses, is outside this
    embedding. *)
Definition access (ev : Event) (change : FS -> FS) : IO unit := fun w =>
  (Ok tt, {| fs := change (fs w); clock := clock w; trace := trace w ++ [ev] |}).

Definition store_makedirs (path : string) : IO unit :=
  access (EvMakedirs path) (makedirs path).

Definition io_clean_prediction_files (pred_file : string) (force : bool)
  : IO unit :=
  access (EvClean pred_file force) (clean_prediction_files pred_file force).

(** An access that reads. The retrieval of [cmk.utils.prediction] is not part
    of the embedded file; it is taken to leave the store as it is. *)
Definition observe {A} (ev : Event) (read : FS -> A) : IO A := fun w =>
  (Ok (read (fs w)),
   {| fs := fs w; clock := clock w; trace := trace w ++ [ev] |}).

Definition io_retrieve_info (path : string) (timegroup : Timegroup)
  : IO (option PredictionInfo) :=
  observe (EvRetrieve path timegroup)
    (retrieve_info_for_prediction path timegroup).

Definition io_retrieve_data (path : string) (timegroup : Timegroup)
  : IO (option _PredictionData) :=
  observe (EvRetrieve path timegroup)
    (retrieve_data_for_prediction path timegroup).

(** [_PREDICTION_PERIODS[key]]: an unhashable key is a [TypeError]; a key that
    is no string equals no key of the table. *)
Definition _PREDICTION_PERIODS_getitem (key : pyval) : Result _PeriodInfo :=
  if negb (py_hashable key) then Raise TypeError
  else match key with
       | PStr name =>
           match _PREDICTION_PERIODS !! name with
           | Some period_info => Ok period_info
           | None => Raise (KeyError key)
           end
       | _ => Raise (KeyError key)
       end.

(** [_PREDICTION_PERIODS[params["period"]]] *)
Definition period_info_of (params : _PredictionParameters) : Result _PeriodInfo :=
  period ← py_getitem params "period";
  _PREDICTION_PERIODS_getitem period.

Definition _save_predictions (pred_file : string) (info : PredictionInfo)
    (data_for_pred : _PredictionData) : IO unit :=
  _ ← access (EvWrite (pred_file ++ ".info"))
        (json_dump_info (pred_file ++ ".info") info);
  access (EvWrite pred_file) (json_dump_data pred_file data_for_pred).

Definition Qltb (x y : Q) : bool := negb (Qle_bool y x).

Definition _is_prediction_up_to_date (pred_file : string)
    (timegroup : Timegroup) (params : _PredictionParameters) : IO bool :=
  last_info ← io_retrieve_info (pred_file ++ ".info") timegroup;
  match last_info with
  | None => mret false
  | Some last_info =>
      period_info ← lift (period_info_of params);
      now ← time_time;
      if Qltb (inject_Z (info_time last_info
                         + valid period_info * slice period_info)) now
      then mret false
      else
        let jsonized_params := jsonize (PDict params) in
        let stored := match info_params last_info with
                      | Some p => p
                      | None => PNone
                      end in
        if negb (py_eq stored jsonized_params) then mret false
        else mret true
  end.

(** Lines 305 to 310 of [get_levels]: the summary of the cache, if it is up to
    date. *)
Definition cached_prediction (pred_file : string) (timegroup : Timegroup)
    (params : _PredictionParameters) : IO (option _PredictionData) :=
  up_to_date ← _is_prediction_up_to_date pred_file timegroup params;
  if up_to_date : bool then io_retrieve_data pred_file timegroup
  else mret None.

(** Lines 313 to 331 of [get_levels]: the summary computed anew and saved. *)
Definition computed_prediction (hostname : HostName)
    (service_description : ServiceName) (dsname : MetricName)
    (params : _PredictionParameters) (cf : ConsolidationFunctionName)
    (now : Timestamp) (period_info : _PeriodInfo) (timegroup : Timegroup)
    (pred_file : string) : IO _PredictionData :=
  _ ← io_clean_prediction_files pred_file true;
  horizon ← lift (py_getitem params "horizon");
  seconds ← lift (horizon_seconds horizon);
  time_windows ← lift (_time_slices now seconds period_info timegroup);
  let rrd_datacolumn := rrd_datacolum hostname service_description dsname cf in
  data_for_pred ← lift (_calculate_data_for_prediction time_windows rrd_datacolumn);
  range ← lift (py_index time_windows 0);
  let info := {| info_time := now;
                 info_range := range;
                 info_cf := cf;
                 info_dsname := dsname;
                 info_slice := slice period_info;
                 info_params := Some (PDict params) |} in
  _ ← _save_predictions pred_file info data_for_pred;
  mret data_for_pred.

Definition get_levels (hostname : HostName) (service_description : ServiceName)
    (dsname : MetricName) (params : _PredictionParameters)
    (cf : ConsolidationFunctionName) (levels_factor : float)
  : IO (option float * EstimatedLevels) :=
  t ← time_time;
  let now := py_int_Q t in
  period_info ← lift (period_info_of params);
  '(timegroup, rel_time) ← lift (groupby period_info now);
  let pred_dir := predictions_dir hostname service_description dsname in
  _ ← store_makedirs pred_dir;
  let pred_file := os_path_join pred_dir timegroup in
  _ ← io_clean_prediction_files pred_file false;
  cached ← cached_prediction pred_file timegroup params;
  data_for_pred ←
    match cached with
    | Some data_for_pred => mret data_for_pred
    | None =>
        computed_prediction hostname service_description dsname params cf now
          period_info timegroup pred_file
    end;
  index ← lift (py_int_truediv rel_time (step data_for_pred));
  point ← lift (py_index (points data_for_pred) index);
  average ← lift (reference_getitem (columns data_for_pred) point "average");
  stdev ← lift (reference_getitem (columns data_for_pred) point "stdev");
  mret (average,
        estimate_levels average stdev (py_get params "levels_lower")
          (py_get params "levels_upper") (py_get params "levels_upper_min")
          levels_factor).

End Cache.

(** ** Names used by the properties *)

(** The name the specification gives to the error the module raises when
    there is no historic data. *)
Definition NoHistoricDataError : exn :=
  MKGeneralException "Got no historic metrics".

(** The name of the class of an exception. *)
Definition exn_class (e : exn) : string :=
  match e with
  | KeyError _ => "KeyError"
  | IndexError => "IndexError"
  | TypeError => "TypeError"
  | ValueError => "ValueError"
  | ZeroDivisionError => "ZeroDivisionError"
  | OverflowError => "OverflowError"
  | MKGeneralException _ => "MKGeneralException"
  end.

(** What a failed lookup in a dict raises: [KeyError] for a key that is
    missing, [TypeError] for a value that cannot be a key. *)
Definition LookupFailure (e : exn) : Prop :=
  (exists key, e = KeyError key) \/ e = TypeError.

(** The formula of the specification for more than one sample,
    [sqrt(abs(sum p_i^2 - avg^2 * n) / (n - 1))], with the operators of
    Python. *)
Definition stdev_formula `{LM : Libm} (point_line : list float)
    (average : float) : Result float :=
  let n := Z.of_nat (length point_line) in
  squares ← mapM py_pow2 point_line;
  avg2 ← py_pow2 average;
  Ok (PrimFloat.sqrt
        (PrimFloat.abs (py_sum squares - avg2 * py_float n) / py_float (n - 1))).

(** What the resolver returned for a step: its timegroup and its window. *)
Definition resolved_timegroup (r : Timegroup * Timestamp * Timestamp * Seconds)
  : Timegroup := let '(tg, _, _, _) := r in tg.

Definition resolved_window (r : Timegroup * Timestamp * Timestamp * Seconds)
  : Timestamp * Timestamp := let '(_, start, end_, _) := r in (start, end_).

(** The sign bit is clear, or the value is NaN. *)
Definition sf_positive_sign (x : spec_float) : Prop :=
  match x with
  | S754_nan => True
  | S754_zero s | S754_infinity s | S754_finite s _ _ => s = false
  end.

(** A float that equals itself is not NaN. *)
Definition not_nan (x : float) : Prop := PrimFloat.is_nan x = false.

Section Worlds.
Context `{CO : Collaborators}.

(** The world after one more access [ev] that leaves the store as it is. *)
Definition observed (ev : Event) (w : World) : World :=
  {| fs := fs w; clock := clock w; trace := trace w ++ [ev] |}.

(** The world after the directory is made and the stale files are cleaned. *)
Definition prepared (pred_dir pred_file : string) (w : World) : World :=
  {| fs := clean_prediction_files pred_file false (makedirs pred_dir (fs w));
     clock := clock w;
     trace := (trace w ++ [EvMakedirs pred_dir]) ++ [EvClean pred_file false] |}.

End Worlds.

(** ** Concrete collaborators

    A concrete local time: UTC, where the offset is zero, the epoch was a
    Thursday ([tm_wday = 3]), and weekdays are named as Checkmk does. The day of
    the month follows the proleptic Gregorian calendar, counted in eras of 400
    years that start on a first of March. *)
Definition utc_mday (days : Z) : Z :=
  let z := days + 719468 in
  let doe := z mod 146097 in
  let yoe := (doe - doe / 1460 + doe / 36524 - doe / 146096) / 365 in
  let doy := doe - (365 * yoe + yoe / 4 - yoe / 100) in
  let mp := (5 * doy + 2) / 153 in
  doy - (153 * mp + 2) / 5 + 1.

Definition utc_localtime (t : Timestamp) : struct_time :=
  {| tm_wday := (t / 86400 + 3) mod 7; tm_mday := utc_mday (t / 86400) |}.

Definition utc_weekday_ids : list Timegroup :=
  ["monday"; "tuesday"; "wednesday"; "thursday"; "friday"; "saturday"; "sunday"].

#[export] Instance utc : LocalTime := {|
  timezone_at := fun _ => 0;
  localtime := utc_localtime;
  weekday_ids := utc_weekday_ids;
  tm_wday_range := fun t => Z.mod_pos_bound (t / 86400 + 3) 7 eq_refl
|}.

(** A concrete store for the cache: one stored record per path. Saved
    parameters come back as JSON gives them; a forced clean removes the summary
    and its metadata. The RRD database holds the constant 100 at a step of one
    hour. *)
Inductive StoredFile : Type :=
| StoredInfo (info : PredictionInfo)
| StoredData (data : _PredictionData).

Definition memory_retrieve_info (path : string) (timegroup : Timegroup)
    (files : gmap string StoredFile) : option PredictionInfo :=
  match files !! path with
  | Some (StoredInfo info) => Some info
  | _ => None
  end.

Definition memory_retrieve_data (path : string) (timegroup : Timegroup)
    (files : gmap string StoredFile) : option _PredictionData :=
  match files !! path with
  | Some (StoredData data) => Some data
  | _ => None
  end.

Definition memory_dump_info (path : string) (info : PredictionInfo)
    (files : gmap string StoredFile) : gmap string StoredFile :=
  <[path := StoredInfo {| info_time := info_time info;
                          info_range := info_range info;
                          info_cf := info_cf info;
                          info_dsname := info_dsname info;
                          info_slice := info_slice info;
                          info_params := jsonize <$> info_params info |}]> files.

Definition constant_rrd : RRDColumnFunction := fun start end_ =>
  {| twindow := (start, end_, 3600);
     values := repeat (Some 100%float) (Z.to_nat ((end_ - start) / 3600)) |}.

#[export] Instance memory_store : Collaborators := {|
  FS := gmap string StoredFile;
  EstimatedLevels := unit;
  predictions_dir := fun hostname service dsname =>
    ("/prediction/" ++ hostname ++ "/" ++ service ++ "/" ++ dsname)%string;
  makedirs := fun _ files => files;
  clean_prediction_files := fun pred_file force files =>
    if force then delete pred_file (delete (pred_file ++ ".info")%string files)
    else files;
  retrieve_info_for_prediction := memory_retrieve_info;
  retrieve_data_for_prediction := memory_retrieve_data;
  json_dump_info := memory_dump_info;
  json_dump_data := fun path data files => <[path := StoredData data]> files;
  rrd_datacolum := fun _ _ _ _ => constant_rrd;
  bfill_upsample := fun ts _ _ => values ts;
  estimate_levels := fun _ _ _ _ _ _ => tt
|}.

(** A concrete C library for the examples: its [pow] at the exponent 2
    returns the correctly rounded square. The theorems hold for every
    library. *)
Definition rounded_pow_2 (x : float) : float * bool :=
  if (0x1p512 <=? x)%float then (infinity, true) else ((x * x)%float, false).

#[export] Instance rounded_libm : Libm := {|
  pow_2 := rounded_pow_2;
  pow_2_overflow := fun x Hx =>
    @eq_ind_r bool true
      (fun b : bool =>
         fst (if b then (infinity, true) else ((x * x)%float, false))
         = infinity)
      eq_refl _ Hx
|}.

Definition wday_info : _PeriodInfo := Build_PeriodInfo 86400 _group_by_wday 7.

Definition sample_params : _PredictionParameters :=
  [("period", PStr "wday"); ("horizon", PInt 90);
   ("levels_upper", PTuple [PStr "absolute"; PTuple [PInt 110; PInt 120]])].

(** The world at [now] in which the metadata of ["/p/sunday"] was computed at
    [computed_at] with [stored] as parameters. *)
Definition world_with_info (computed_at : Timestamp) (stored : option pyval)
    (now : Q) : World :=
  {| fs := <["/p/sunday.info" :=
             StoredInfo {| info_time := computed_at;
                           info_range := (1599955200, 1600041600);
                           info_cf := "MAX";
                           info_dsname := "load1";
                           info_slice := 86400;
                           info_params := stored |}]> (∅ : gmap string StoredFile);
     clock := now;
     trace := [] |}.

Definition empty_world (now : Q) : World :=
  {| fs := (∅ : gmap string StoredFile); clock := now; trace := [] |}.

(** * Properties *)

(** ** The result monad *)

Lemma rbind_Ok {A B} (r : Result A) (k : A -> Result B) (b : B) :
  r ≫= k = Ok b <-> exists a, r = Ok a /\ k a = Ok b.
Proof.
  destruct r as [a|e]; cbn; split.
  - intros Hk. now exists a.
  - now intros (a' & [= <-] & Hk).
  - discriminate.
  - now intros (a' & [=] & _).
Qed.

Lemma py_index_in_range {A} (l : list A) (i : Z) :
  0 <= i < Z.of_nat (length l) -> exists x, py_index l i = Ok x /\ In x l.
Proof.
  intros Hi. unfold py_index.
  destruct (Z.ltb_spec i 0) as [?|_]; [lia|].
  destruct (Z.ltb_spec i 0) as [?|_]; [lia|].
  destruct (Z.leb_spec (Z.of_nat (length l)) i) as [?|_]; [lia|]. cbn.
  destruct (nth_error l (Z.to_nat i)) as [x|] eqn:Hn.
  - exists x. split; [reflexivity|]. eapply nth_error_In, Hn.
  - apply nth_error_None in Hn. lia.
Qed.

Lemma py_index_nil {A} (i : Z) : py_index (@nil A) i = Raise IndexError.
Proof.
  unfold py_index.
  destruct (_ || _); [reflexivity|].
  now destruct (Z.to_nat _).
Qed.

Lemma py_index_head {A} (x : A) (l : list A) : py_index (x :: l) 0 = Ok x.
Proof.
  unfold py_index. cbn [length Z.ltb Z.compare].
  destruct (Z.leb_spec (Z.of_nat (S (length l))) 0) as [?|_]; [lia|].
  reflexivity.
Qed.

(** Unfolds the monad of the entry point down to functions on the world. *)
Ltac unfold_io :=
  unfold mbind, mret, io_bind, io_ret, lift, time_time, store_makedirs,
    io_clean_prediction_files, io_retrieve_info, io_retrieve_data, access,
    observe.

(** ** The period table *)

Section ResolverFacts.
Context `{LT : LocalTime}.

Lemma prediction_periods_inv (period : string) (period_info : _PeriodInfo) :
  _PREDICTION_PERIODS !! period = Some period_info ->
  (period = "wday" /\ period_info = Build_PeriodInfo 86400 _group_by_wday 7) \/
  (period = "day"
     /\ period_info = Build_PeriodInfo 86400 _group_by_day_of_month 28) \/
  (period = "hour" /\ period_info = Build_PeriodInfo 86400 _group_by_day 1) \/
  (period = "minute"
     /\ period_info = Build_PeriodInfo 3600 _group_by_everyhour 24).
Proof.
  unfold _PREDICTION_PERIODS. intros Hl.
  repeat (apply lookup_insert_Some in Hl as [[<- <-]|[_ Hl]]; [tauto|]).
  now rewrite lookup_empty in Hl.
Qed.

Lemma prediction_periods_None (period : string) :
  period <> "wday" -> period <> "day" -> period <> "hour" ->
  period <> "minute" -> _PREDICTION_PERIODS !! period = None.
Proof.
  intros. unfold _PREDICTION_PERIODS.
  rewrite !lookup_insert_ne by congruence. apply lookup_empty.
Qed.

(** Every grouping function of the table returns, with the offset of
    [_window_start] for the slice length of its entry. *)
Lemma groupby_supported (period : string) (period_info : _PeriodInfo) (t : Z) :
  _PREDICTION_PERIODS !! period = Some period_info ->
  0 < slice period_info /\
  exists tg, groupby period_info t
             = Ok (tg, (t - timezone_at t) mod slice period_info).
Proof.
  intros Hl.
  destruct (prediction_periods_inv _ _ Hl)
    as [[_ ->]|[[_ ->]|[[_ ->]|[_ ->]]]]; cbn [slice groupby];
    (split; [lia|]).
  - destruct (py_index_in_range weekday_ids _ (tm_wday_range t))
      as (name & Hname & _).
    exists name. unfold _group_by_wday. rewrite Hname. reflexivity.
  - eexists. reflexivity.
  - eexists. reflexivity.
  - eexists. reflexivity.
Qed.

Lemma get_prediction_timegroup_supported (period : string)
    (period_info : _PeriodInfo) (t : Z) :
  _PREDICTION_PERIODS !! period = Some period_info ->
  exists tg,
    _get_prediction_timegroup t period_info
    = Ok (tg,
          t - (t - timezone_at t) mod slice period_info,
          t - (t - timezone_at t) mod slice period_info + slice period_info,
          (t - timezone_at t) mod slice period_info).
Proof.
  intros Hl. destruct (groupby_supported _ _ t Hl) as (_ & tg & Hg).
  exists tg. unfold _get_prediction_timegroup. rewrite Hg. reflexivity.
Qed.

End ResolverFacts.

(** C1. For every timestamp [t] and every period of the table, the resolver
    returns [(timegroup, slice_start, slice_end, offset)] with
    [offset = (t - timezone_at t) mod slice_length],
    [slice_start = t - offset] and [slice_end = slice_start + slice_length];
    hence [slice_start <= t < slice_end], and the window is one slice long. *)
Theorem get_prediction_timegroup_window `{LT : LocalTime} (period : string)
    (period_info : _PeriodInfo) (t : Timestamp) :
  _PREDICTION_PERIODS !! period = Some period_info ->
  exists timegroup slice_start slice_end offset,
    _get_prediction_timegroup t period_info
    = Ok (timegroup, slice_start, slice_end, offset) /\
    offset = (t - timezone_at t) mod slice period_info /\
    slice_start = t - offset /\
    slice_end = slice_start + slice period_info /\
    slice_start <= t < slice_end /\
    slice_end - slice_start = slice period_info.
Proof.
  intros Hl.
  destruct (get_prediction_timegroup_supported _ _ t Hl) as (tg & Hr).
  destruct (groupby_supported _ _ t Hl) as (Hpos & _).
  pose proof (Z.mod_pos_bound (t - timezone_at t) (slice period_info) Hpos).
  eexists tg, _, _, _. split; [exact Hr|].
  repeat split; lia.
Qed.

Lemma get_prediction_timegroup_window_witness :
  exists timegroup slice_start slice_end offset,
    _get_prediction_timegroup 1600000000 (Build_PeriodInfo 86400 _group_by_wday 7)
    = Ok (timegroup, slice_start, slice_end, offset) /\
    offset = (1600000000 - timezone_at 1600000000) mod 86400 /\
    slice_start = 1600000000 - offset /\
    slice_end = slice_start + 86400 /\
    slice_start <= 1600000000 < slice_end /\
    slice_end - slice_start = 86400.
Proof.
  apply (@get_prediction_timegroup_window utc "wday"
           (Build_PeriodInfo 86400 _group_by_wday 7) 1600000000).
  reflexivity.
Defined.

(** ** Stepping backward through the horizon *)

(** With a negative step, [range] counts down from [start] and stops before
    [stop] is reached. *)
Lemma py_range_down (start stop step : Z) :
  0 < step ->
  exists begins,
    py_range start stop (- step) = Ok begins /\
    (forall b, In b begins <->
               exists k, 0 <= k /\ b = start - k * step /\ stop < b) /\
    StronglySorted Z.gt begins /\
    (stop < start -> exists rest, begins = start :: rest).
Proof.
  intros Hstep. unfold py_range.
  destruct (Z.eqb_spec (- step) 0) as [?|_]; [lia|].
  destruct (Z.ltb_spec 0 (- step)) as [?|_]; [lia|].
  rewrite Z.opp_involutive.
  set (n := Z.to_nat (range_len stop start step)).
  assert (Hn : forall i : nat, (i < n)%nat <-> stop < start - Z.of_nat i * step).
  { intros i. subst n. unfold range_len.
    destruct (Z.ltb_spec stop start) as [Hlt|Hge].
    - pose proof (Z.div_pos (start - stop - 1) step ltac:(lia) Hstep).
      pose proof (Z.mul_div_le (start - stop - 1) step Hstep).
      pose proof (Z.mod_pos_bound (start - stop - 1) step Hstep).
      pose proof (Z.div_mod (start - stop - 1) step ltac:(lia)).
      split; intros Hi; [assert (Z.of_nat i <= (start - stop - 1) / step) by lia
                        |assert (Z.of_nat i <= (start - stop - 1) / step)];
        try nia.
    - cbn. split; [lia|]. nia. }
  eexists. split; [reflexivity|]. repeat split.
  - intros Hin. apply in_map_iff in Hin as (i & <- & Hi).
    apply in_seq in Hi. exists (Z.of_nat i). split; [lia|].
    split; [lia|]. pose proof (proj1 (Hn i) ltac:(lia)). lia.
  - intros (k & Hk & -> & Hb). apply in_map_iff.
    exists (Z.to_nat k). split; [lia|]. apply in_seq.
    split; [lia|]. cbn. apply Hn. lia.
  - clear Hn. generalize 0%nat as lo. induction n as [|n IH]; intros lo; cbn.
    + constructor.
    + constructor; [apply IH|]. apply List.Forall_forall.
      intros b Hin. apply in_map_iff in Hin as (i & <- & Hi).
      apply in_seq in Hi. nia.
  - intros Hlt. pose proof (proj2 (Hn 0%nat) ltac:(lia)) as H0.
    destruct n as [|m]; [lia|]. cbn. eexists. f_equal. lia.
Qed.

Section TimeSlices.
Context `{LT : LocalTime}.

(** The loop appends, in order, the window of every step whose timegroup is the
    target. *)
Lemma time_slices_loop_resolved (period_info : _PeriodInfo)
    (timegroup : Timegroup) (begins : list Z) :
  forall resolved slices,
    Forall2 (fun b r => _get_prediction_timegroup b period_info = Ok r)
      begins resolved ->
    _time_slices_loop period_info timegroup begins slices
    = Ok (slices ++
          map resolved_window
            (List.filter (fun r => String.eqb (resolved_timegroup r) timegroup)
               resolved)).
Proof.
  induction begins as [|b begins IH]; intros resolved slices Hres;
    inversion Hres as [|? r ? resolved' Hr Hrest]; subst; cbn.
  - now rewrite app_nil_r.
  - rewrite Hr. cbn. destruct r as [[[tg start] end_] off]. cbn.
    rewrite (IH _ _ Hrest). destruct (String.eqb tg timegroup); cbn.
    + now rewrite <- app_assoc.
    + reflexivity.
Qed.

Lemma resolve_all (period : string) (period_info : _PeriodInfo)
    (begins : list Z) :
  _PREDICTION_PERIODS !! period = Some period_info ->
  exists resolved,
    Forall2 (fun b r => _get_prediction_timegroup b period_info = Ok r)
      begins resolved.
Proof.
  intros Hl. induction begins as [|b begins (resolved & IH)].
  - exists []. constructor.
  - destruct (get_prediction_timegroup_supported _ _ b Hl) as (tg & Hr).
    eexists (_ :: resolved). constructor; [exact Hr|exact IH].
Qed.

End TimeSlices.

(** C2. For a period of the table, [_time_slices] returns the windows of the
    steps [timestamp - k * slice_length] ([k = 0, 1, ...]) that lie after
    [timestamp - horizon], most recent first, keeping the steps whose resolved
    timegroup is the target. So every returned window was resolved to the
    target; the result is empty exactly when no step within the horizon
    resolves to the target; and with a positive horizon (one that spans a
    period cycle is positive) the slice of [timestamp] itself comes first when
    the target is its timegroup. *)
Theorem time_slices_collects `{LT : LocalTime} (period : string)
    (period_info : _PeriodInfo) (timestamp : Timestamp) (horizon : Seconds)
    (timegroup : Timegroup) :
  _PREDICTION_PERIODS !! period = Some period_info ->
  exists begins resolved windows,
    (forall b, In b begins <->
       exists k, 0 <= k /\ b = timestamp - k * slice period_info
                 /\ timestamp - horizon < b) /\
    StronglySorted Z.gt begins /\
    Forall2 (fun b r => _get_prediction_timegroup b period_info = Ok r)
      begins resolved /\
    windows
    = map resolved_window
        (List.filter (fun r => String.eqb (resolved_timegroup r) timegroup)
           resolved) /\
    _time_slices timestamp horizon period_info timegroup = Ok windows /\
    (forall w, In w windows ->
       exists b off, In b begins /\
         _get_prediction_timegroup b period_info
         = Ok (timegroup, fst w, snd w, off)) /\
    (windows = [] <->
       forall b r, In b begins ->
         _get_prediction_timegroup b period_info = Ok r ->
         resolved_timegroup r <> timegroup) /\
    (forall start end_ off,
       0 < horizon ->
       _get_prediction_timegroup timestamp period_info
       = Ok (timegroup, start, end_, off) ->
       exists older, windows = (start, end_) :: older).
Proof.
  intros Hl.
  destruct (groupby_supported _ _ timestamp Hl) as (Hpos & _).
  destruct (py_range_down timestamp (timestamp - horizon) _ Hpos)
    as (begins & Hrange & Hin & Hsorted & Hhead).
  destruct (resolve_all _ _ begins Hl) as (resolved & Hres).
  exists begins, resolved. eexists.
  split; [exact Hin|]. split; [exact Hsorted|]. split; [exact Hres|].
  split; [reflexivity|]. split; [|split; [|split]].
  - unfold _time_slices. rewrite Hrange. cbn.
    now rewrite (time_slices_loop_resolved _ _ _ _ [] Hres).
  - intros w Hw. apply in_map_iff in Hw as (r & <- & Hr).
    apply filter_In in Hr as (Hr & Htg). apply String.eqb_eq in Htg.
    clear Hin Hsorted Hhead Hrange.
    induction Hres as [|b r' begins resolved Hb Hres IH]; [contradiction|].
    destruct Hr as [->|Hr].
    + destruct r as [[[tg start] end_] off]. cbn in Htg. subst tg.
      exists b, off. split; [now left|exact Hb].
    + destruct (IH Hr) as (b' & off & Hb' & Heq).
      exists b', off. split; [now right|exact Heq].
  - clear Hin Hsorted Hhead Hrange. split.
    + intros Hnil b r Hb Hr Htg.
      induction Hres as [|b' r' begins resolved Hb' Hres IH]; [contradiction|].
      cbn in Hnil. destruct Hb as [->|Hb].
      * rewrite Hb' in Hr. injection Hr as ->.
        apply String.eqb_eq in Htg. rewrite Htg in Hnil. discriminate.
      * apply IH; [|exact Hb].
        destruct (String.eqb (resolved_timegroup r') timegroup);
          [discriminate|exact Hnil].
    + intros Hno.
      induction Hres as [|b' r' begins resolved Hb' Hres IH]; [reflexivity|].
      cbn. destruct (String.eqb_spec (resolved_timegroup r') timegroup) as [E|_].
      * exfalso. exact (Hno b' r' (or_introl eq_refl) Hb' E).
      * apply IH. intros b r Hb. apply Hno. now right.
  - intros start end_ off Hh Hnow.
    destruct (Hhead ltac:(lia)) as (rest & ->).
    inversion Hres as [|? r ? resolved' Hr Hrest]; subst.
    rewrite Hnow in Hr. injection Hr as <-. cbn.
    rewrite String.eqb_refl. cbn. eexists. reflexivity.
Qed.

(** ** The historical slices at a concrete instant *)

Lemma time_slices_collects_witness :
  exists windows older,
    _time_slices 1600000000 (8 * 86400) wday_info "sunday" = Ok windows /\
    windows = (1599955200, 1600041600) :: older.
Proof.
  destruct (@time_slices_collects utc "wday" wday_info 1600000000 (8 * 86400)
              "sunday" eq_refl)
    as (begins & resolved & windows & _ & _ & _ & _ & Hw & _ & _ & Hhead).
  destruct (Hhead 1599955200 1600041600 44800 ltac:(lia) eq_refl) as (older & ->).
  exists ((1599955200, 1600041600) :: older), older. split; [exact Hw|reflexivity].
Defined.

(** ** Signs and order of binary64 values *)

Lemma binary_round_aux_sign m e l :
  sf_positive_sign (binary_round_aux prec emax false m e l).
Proof.
  unfold binary_round_aux.
  destruct (shr_fexp prec emax m e l) as [mrs' e'].
  destruct (shr_fexp prec emax _ e' loc_Exact) as [mrs'' e''].
  destruct (shr_m mrs'') as [|p|p]; [reflexivity| |exact I].
  destruct (e'' <=? emax - prec); reflexivity.
Qed.

Lemma SFabs_sign x : sf_positive_sign (SFabs x).
Proof. destruct x; cbn; auto. Qed.

Lemma SFdiv_sign x y :
  sf_positive_sign x -> sf_positive_sign y ->
  sf_positive_sign (SFdiv prec emax x y).
Proof.
  destruct x as [sx|sx| |sx mx ex], y as [sy|sy| |sy my ey]; cbn;
    intros Hx Hy; subst; cbn; auto.
  destruct (SFdiv_core_binary prec emax (Z.pos mx) ex (Z.pos my) ey)
    as [[mz ez] lz].
  apply binary_round_aux_sign.
Qed.

Lemma of_uint63_sign n : sf_positive_sign (Prim2SF (of_uint63 n)).
Proof.
  rewrite FloatAxioms.of_uint63_spec.
  pose proof (Uint63.to_Z_bounded n) as Hn.
  destruct (Uint63.to_Z n) as [|p|p]; cbn; [reflexivity| |lia].
  unfold binary_round.
  destruct (shl_align p 0 _) as [mz ez]. apply binary_round_aux_sign.
Qed.

Lemma sign_not_negative x :
  sf_positive_sign x -> SFltb x (Prim2SF 0) = false.
Proof.
  change (Prim2SF 0) with (S754_zero false).
  destruct x as [s|s| |s m e]; cbn; intros Hs; subst; reflexivity.
Qed.

Lemma SFsqrt_not_negative x :
  SFltb (SFsqrt prec emax x) (Prim2SF 0) = false.
Proof.
  change (Prim2SF 0) with (S754_zero false).
  destruct x as [s|[|]| |[|] m e]; try reflexivity.
  cbn [SFsqrt].
  destruct (SFsqrt_core_binary prec emax (Z.pos m) e) as [[mz ez] lz].
  apply (sign_not_negative _ (binary_round_aux_sign mz ez lz)).
Qed.

Lemma abs_not_negative x : (PrimFloat.abs x <? 0)%float = false.
Proof.
  rewrite FloatAxioms.ltb_spec, FloatAxioms.abs_spec.
  apply sign_not_negative, SFabs_sign.
Qed.

Lemma sqrt_not_negative x : (PrimFloat.sqrt x <? 0)%float = false.
Proof.
  rewrite FloatAxioms.ltb_spec, FloatAxioms.sqrt_spec.
  apply SFsqrt_not_negative.
Qed.

Lemma binary_round_sign m e :
  sf_positive_sign (binary_round prec emax false m e).
Proof.
  unfold binary_round.
  destruct (shl_align m e _) as [mz ez]. apply binary_round_aux_sign.
Qed.

Lemma py_float_sign k : 0 <= k -> sf_positive_sign (Prim2SF (py_float k)).
Proof.
  intros Hk. unfold py_float, binary_normalize.
  destruct k as [|p|p]; [reflexivity| |lia].
  pose proof (binary_round_sign p 0) as Hsign.
  destruct (binary_round prec emax false p 0) as [s|s| |s m e];
    cbn in Hsign; subst; try reflexivity.
  cbn [SF2Prim]. rewrite FloatLemmas.Z_ldexp_spec.
  pose proof (of_uint63_sign (Uint63.of_Z (Z.pos m))) as Hm.
  destruct (Prim2SF (of_uint63 (Uint63.of_Z (Z.pos m)))) as [s|s| |s m' e'];
    cbn in Hm; subst; cbn [SFldexp]; try reflexivity.
  apply binary_round_sign.
Qed.

Lemma div_abs_not_negative x k :
  0 <= k -> (PrimFloat.abs x / py_float k <? 0)%float = false.
Proof.
  intros Hk.
  rewrite FloatAxioms.ltb_spec, FloatAxioms.div_spec, FloatAxioms.abs_spec.
  apply sign_not_negative, SFdiv_sign; [apply SFabs_sign|now apply py_float_sign].
Qed.

(** [SFcompare] orders the values that are not NaN. *)
Lemma SFleb_trans x y z :
  SFleb x y = true -> SFleb y z = true -> SFleb x z = true.
Proof.
  unfold SFleb.
  destruct x as [sx|sx| |sx mx ex], y as [sy|sy| |sy my ey],
    z as [sz|sz| |sz mz ez]; cbn; try discriminate; try reflexivity;
    try (destruct sx; cbn; try discriminate; try reflexivity);
    try (destruct sy; cbn; try discriminate; try reflexivity);
    try (destruct sz; cbn; try discriminate; try reflexivity).
  all: change (PosDef.Pos.compare_cont Eq) with Pos.compare.
  all: destruct (Z.compare_spec ex ey), (Z.compare_spec ey ez),
         (Z.compare_spec ex ez); try lia; try discriminate; try reflexivity;
         subst; cbn.
  all: destruct (Pos.compare_spec mx my), (Pos.compare_spec my mz),
         (Pos.compare_spec mx mz); try lia; try discriminate; try reflexivity.
Qed.

Lemma SFltb_leb x y : SFltb x y = true -> SFleb x y = true.
Proof. unfold SFltb, SFleb. now destruct (SFcompare x y) as [[| |]|]. Qed.

Lemma SFeqb_leb x y : SFeqb x y = true -> SFleb x y = true.
Proof. unfold SFeqb, SFleb. now destruct (SFcompare x y) as [[| |]|]. Qed.

Lemma SFcompare_total x y :
  SFeqb x x = true -> SFeqb y y = true ->
  SFltb x y = false -> SFleb y x = true.
Proof.
  unfold SFeqb, SFltb, SFleb.
  destruct x as [sx|sx| |sx mx ex], y as [sy|sy| |sy my ey]; cbn;
    try discriminate; try reflexivity;
    try (destruct sx; cbn; try discriminate; try reflexivity);
    try (destruct sy; cbn; try discriminate; try reflexivity).
  all: change (PosDef.Pos.compare_cont Eq) with Pos.compare.
  all: intros _ _; rewrite (Z.compare_antisym ex ey);
       destruct (Z.compare_spec ex ey); cbn; try discriminate; try reflexivity.
  all: rewrite (Pos.compare_antisym mx my);
       destruct (Pos.compare_spec mx my); cbn; try discriminate; reflexivity.
Qed.

Lemma not_nan_eqb x : not_nan x <-> (x =? x)%float = true.
Proof.
  unfold not_nan, PrimFloat.is_nan. destruct (x =? x)%float; cbn; intuition.
Qed.

Lemma leb_refl x : not_nan x -> (x <=? x)%float = true.
Proof.
  intros Hx. apply not_nan_eqb in Hx.
  rewrite FloatAxioms.eqb_spec in Hx. rewrite FloatAxioms.leb_spec.
  now apply SFeqb_leb.
Qed.

Lemma leb_trans x y z :
  (x <=? y)%float = true -> (y <=? z)%float = true -> (x <=? z)%float = true.
Proof. rewrite !FloatAxioms.leb_spec. apply SFleb_trans. Qed.

Lemma ltb_leb x y : (x <? y)%float = true -> (x <=? y)%float = true.
Proof. rewrite FloatAxioms.ltb_spec, FloatAxioms.leb_spec. apply SFltb_leb. Qed.

Lemma not_ltb_leb x y :
  not_nan x -> not_nan y -> (x <? y)%float = false -> (y <=? x)%float = true.
Proof.
  intros Hx Hy. apply not_nan_eqb in Hx, Hy.
  rewrite FloatAxioms.eqb_spec in Hx, Hy.
  rewrite FloatAxioms.ltb_spec, FloatAxioms.leb_spec.
  now apply SFcompare_total.
Qed.

(** ** Minimum and maximum *)

Lemma fold_min_spec (rest : list float) :
  forall cur,
    not_nan cur -> Forall not_nan rest ->
    let lo :=
      fold_left (fun cur item => if (item <? cur)%float then item else cur)
        rest cur in
    not_nan lo /\ (lo <=? cur)%float = true /\
    Forall (fun x => (lo <=? x)%float = true) rest /\
    In lo (cur :: rest).
Proof.
  induction rest as [|item rest IH]; intros cur Hcur Hrest; cbn zeta.
  - cbn. repeat split; [exact Hcur|now apply leb_refl|constructor|now left].
  - inversion Hrest as [|? ? Hitem Hrest']; subst. cbn [fold_left].
    set (cur' := if (item <? cur)%float then item else cur).
    assert (Hcur' : not_nan cur') by (subst cur'; now destruct (item <? cur)%float).
    assert (Hle_cur : (cur' <=? cur)%float = true).
    { subst cur'. destruct (item <? cur)%float eqn:Hlt;
        [now apply ltb_leb|now apply leb_refl]. }
    assert (Hle_item : (cur' <=? item)%float = true).
    { subst cur'. destruct (item <? cur)%float eqn:Hlt;
        [now apply leb_refl|now apply not_ltb_leb]. }
    destruct (IH cur' Hcur' Hrest') as (Hlo & Hle & Hall & Hin).
    repeat split.
    + exact Hlo.
    + exact (leb_trans _ _ _ Hle Hle_cur).
    + constructor; [exact (leb_trans _ _ _ Hle Hle_item)|exact Hall].
    + destruct Hin as [<-|Hin]; [|now right; right].
      subst cur'. destruct (item <? cur)%float; [right; now left|now left].
Qed.

Lemma fold_max_spec (rest : list float) :
  forall cur,
    not_nan cur -> Forall not_nan rest ->
    let hi :=
      fold_left (fun cur item => if (cur <? item)%float then item else cur)
        rest cur in
    not_nan hi /\ (cur <=? hi)%float = true /\
    Forall (fun x => (x <=? hi)%float = true) rest /\
    In hi (cur :: rest).
Proof.
  induction rest as [|item rest IH]; intros cur Hcur Hrest; cbn zeta.
  - cbn. repeat split; [exact Hcur|now apply leb_refl|constructor|now left].
  - inversion Hrest as [|? ? Hitem Hrest']; subst. cbn [fold_left].
    set (cur' := if (cur <? item)%float then item else cur).
    assert (Hcur' : not_nan cur') by (subst cur'; now destruct (cur <? item)%float).
    assert (Hle_cur : (cur <=? cur')%float = true).
    { subst cur'. destruct (cur <? item)%float eqn:Hlt;
        [now apply ltb_leb|now apply leb_refl]. }
    assert (Hle_item : (item <=? cur')%float = true).
    { subst cur'. destruct (cur <? item)%float eqn:Hlt;
        [now apply leb_refl|now apply not_ltb_leb]. }
    destruct (IH cur' Hcur' Hrest') as (Hhi & Hle & Hall & Hin).
    repeat split.
    + exact Hhi.
    + exact (leb_trans _ _ _ Hle_cur Hle).
    + constructor; [exact (leb_trans _ _ _ Hle_item Hle)|exact Hall].
    + destruct Hin as [<-|Hin]; [|now right; right].
      subst cur'. destruct (cur <? item)%float; [right; now left|now left].
Qed.

Lemma py_min_max_spec (point_line : list float) (lo hi : float) :
  Forall not_nan point_line ->
  py_min point_line = Ok lo -> py_max point_line = Ok hi ->
  In lo point_line /\ In hi point_line /\
  (lo <=? hi)%float = true /\
  Forall (fun x => (lo <=? x)%float = true /\ (x <=? hi)%float = true)
    point_line.
Proof.
  destruct point_line as [|x rest]; [discriminate|].
  intros Hall [= <-] [= <-]. inversion Hall as [|? ? Hx Hrest]; subst.
  destruct (fold_min_spec rest x Hx Hrest) as (_ & Hlo & Hlos & Hinlo).
  destruct (fold_max_spec rest x Hx Hrest) as (_ & Hhi & Hhis & Hinhi).
  cbn zeta in *. repeat split; [exact Hinlo|exact Hinhi| |].
  - exact (leb_trans _ _ _ Hlo Hhi).
  - constructor; [now split|].
    apply List.Forall_forall. intros y Hy.
    rewrite List.Forall_forall in Hlos, Hhis. split; auto.
Qed.

Lemma py_min_max_members (point_line : list float) (lo hi : float) :
  py_min point_line = Ok lo -> py_max point_line = Ok hi ->
  In lo point_line /\ In hi point_line.
Proof.
  destruct point_line as [|x rest]; [discriminate|]. intros [= <-] [= <-].
  assert (Hfold : forall (step : float -> float -> float) cur,
             (forall c i, step c i = c \/ step c i = i) ->
             In (fold_left step rest cur) (cur :: rest)).
  { intros step cur Hstep. revert cur.
    induction rest as [|item rest IH]; intros cur; [now left|].
    cbn [fold_left]. destruct (IH (step cur item)) as [Heq|Hin].
    - rewrite <- Heq. destruct (Hstep cur item) as [->| ->].
      + now left.
      + right; now left.
    - right; now right. }
  split; apply Hfold; intros c i.
  - destruct (i <? c)%float; auto.
  - destruct (c <? i)%float; auto.
Qed.
(** ** The standard deviation *)

Section StdDevFacts.
Context `{LM : Libm}.

Lemma py_pow2_raises x e : py_pow2 x = Raise e -> e = OverflowError.
Proof.
  unfold py_pow2.
  destruct (PrimFloat.is_nan x); [discriminate|].
  destruct (PrimFloat.is_infinity x); [discriminate|].
  destruct (x =? 0)%float; [discriminate|].
  destruct (_ =? 1)%float; [discriminate|].
  destruct (pow_2 _) as [ix erange].
  destruct (if erange then _ else _); [now intros [= <-]|discriminate].
Qed.

(** The square of [2^600] is out of range whatever the C library. *)
Lemma py_pow2_huge : py_pow2 0x1p600 = Raise OverflowError.
Proof.
  unfold py_pow2.
  change (PrimFloat.is_nan 0x1p600) with false.
  change (PrimFloat.is_infinity 0x1p600) with false.
  change (0x1p600 =? 0)%float with false.
  change (0x1p600 <? 0)%float with false.
  change (0x1p600 =? 1)%float with false. cbv iota.
  pose proof (pow_2_overflow 0x1p600 eq_refl) as Hinf.
  destruct (pow_2 0x1p600) as [ix erange]. cbn in Hinf. subst ix.
  now destruct erange.
Qed.

(** The bases that never reach the C library. *)
Example py_pow2_special :
  py_pow2 (- 1) = Ok 1%float /\
  py_pow2 neg_infinity = Ok infinity /\
  py_pow2 (- 0) = Ok 0%float /\
  py_pow2 nan = Ok nan.
Proof. repeat split; reflexivity. Qed.

Lemma mapM_py_pow2_raises (point_line : list float) :
  forall e, mapM py_pow2 point_line = Raise e -> e = OverflowError.
Proof.
  induction point_line as [|p rest IH]; intros e; cbn [mapM]; [discriminate|].
  destruct (py_pow2 p) as [sq|e'] eqn:Hp; cbn.
  - destruct (mapM py_pow2 rest) as [squares|e'] eqn:Hrest; cbn; [discriminate|].
    intros [= <-]. now apply IH.
  - intros [= <-]. exact (py_pow2_raises _ _ Hp).
Qed.

(** The squares of the samples are all in range, or one of them raises. *)
Lemma mapM_py_pow2_Raise (point_line : list float) :
  mapM py_pow2 point_line = Raise OverflowError <->
  exists x, In x point_line /\ py_pow2 x = Raise OverflowError.
Proof.
  induction point_line as [|p rest IH]; cbn [mapM].
  - split; [discriminate|]. now intros (x & [] & _).
  - destruct (py_pow2 p) as [sq|e'] eqn:Hp; cbn.
    + destruct (mapM py_pow2 rest) as [squares|e'] eqn:Hrest; cbn.
      * split; [discriminate|]. intros (x & [<-|Hin] & Hx); [congruence|].
        assert (Habs : @Ok (list float) squares = Raise OverflowError)
          by (apply IH; now exists x).
        discriminate.
      * pose proof (mapM_py_pow2_raises _ _ Hrest) as ->. split; [|reflexivity].
        intros _. destruct (proj1 IH eq_refl) as (x & Hin & Hx).
        exists x. split; [now right|exact Hx].
    + pose proof (py_pow2_raises _ _ Hp) as ->. split; [|reflexivity].
      intros _. exists p. split; [now left|exact Hp].
Qed.

Lemma py_sum_squares_mapM (point_line : list float) :
  forall acc,
    py_sum_squares acc point_line
    = squares ← mapM py_pow2 point_line; Ok (fold_left PrimFloat.add squares acc).
Proof.
  induction point_line as [|p rest IH]; intros acc; [reflexivity|].
  cbn [py_sum_squares mapM]. destruct (py_pow2 p) as [sq|e]; [|reflexivity].
  cbn. rewrite IH. now destruct (mapM py_pow2 rest).
Qed.

Lemma py_sum_squares_raises (point_line : list float) :
  forall acc e, py_sum_squares acc point_line = Raise e -> e = OverflowError.
Proof.
  induction point_line as [|p rest IH]; intros acc e; [discriminate|].
  cbn [py_sum_squares]. destruct (py_pow2 p) as [sq|e'] eqn:Hp; cbn.
  - apply IH.
  - intros [= <-]. exact (py_pow2_raises _ _ Hp).
Qed.

Lemma std_dev_single (p average : float) :
  _std_dev [p] average = Ok (PrimFloat.abs average).
Proof. reflexivity. Qed.

Lemma std_dev_many (point_line : list float) (average : float) :
  (1 < length point_line)%nat ->
  _std_dev point_line average = stdev_formula point_line average.
Proof.
  intros Hn. unfold _std_dev, stdev_formula.
  destruct (Z.eqb_spec (Z.of_nat (length point_line)) 1) as [?|_]; [lia|].
  rewrite py_sum_squares_mapM.
  destruct (mapM py_pow2 point_line) as [squares|e]; [|reflexivity]. cbn.
  destruct (py_pow2 average) as [avg2|e]; [|reflexivity]. cbn.
  unfold py_div_int.
  destruct (Z.eqb_spec (Z.of_nat (length point_line) - 1) 0) as [?|_]; [lia|].
  cbn. unfold math_sqrt. rewrite div_abs_not_negative by lia. reflexivity.
Qed.

(** On a non-empty input [_std_dev] only fails when a square overflows, and
    what it returns is never below zero. *)
Lemma std_dev_raises (point_line : list float) (average : float) (e : exn) :
  point_line <> [] ->
  _std_dev point_line average = Raise e -> e = OverflowError.
Proof.
  intros Hne. destruct point_line as [|p [|q rest]]; [contradiction|discriminate|].
  rewrite std_dev_many by (cbn; lia). unfold stdev_formula.
  destruct (mapM py_pow2 (p :: q :: rest)) as [squares|e'] eqn:Hsq.
  - cbn. destruct (py_pow2 average) as [avg2|e'] eqn:Ha; cbn; [discriminate|].
    intros [= <-]. exact (py_pow2_raises _ _ Ha).
  - cbn. intros [= <-].
    pose proof (py_sum_squares_mapM (p :: q :: rest) 0%float) as Hs.
    rewrite Hsq in Hs. exact (py_sum_squares_raises _ _ _ Hs).
Qed.

Lemma std_dev_not_negative (point_line : list float) (average sd : float) :
  point_line <> [] ->
  _std_dev point_line average = Ok sd -> (sd <? 0)%float = false.
Proof.
  intros Hne. destruct point_line as [|p [|q rest]]; [contradiction| |].
  - intros [= <-]. apply abs_not_negative.
  - rewrite std_dev_many by (cbn; lia). unfold stdev_formula.
    destruct (mapM py_pow2 _); [|discriminate]. cbn.
    destruct (py_pow2 average); [|discriminate]. cbn.
    intros [= <-]. apply sqrt_not_negative.
Qed.

(** ** The summarizer *)

Lemma fold_min_length (rest : list (list (option float))) :
  forall (m i : nat),
    (i < fold_left (fun m t => Nat.min m (length t)) rest m)%nat
    <-> (i < m)%nat /\ Forall (fun t => (i < length t)%nat) rest.
Proof.
  induction rest as [|t rest IH]; intros m i; cbn [fold_left].
  - split; [intros Hi; split; [exact Hi|constructor]|tauto].
  - rewrite IH. split.
    + intros (Hi & Hall). split; [lia|]. constructor; [lia|exact Hall].
    + intros (Hi & Hall). inversion Hall; subst. split; [lia|assumption].
Qed.

Lemma zip_star_length (slices : list TimeSeriesValues) (i : nat) :
  (i < length (zip_star None slices))%nat
  <-> slices <> [] /\ Forall (fun series => (i < length series)%nat) slices.
Proof.
  destruct slices as [|s rest]; cbn [zip_star].
  - cbn. split; [lia|intros [Hne _]; contradiction].
  - rewrite length_map, length_seq, fold_min_length. split.
    + intros (Hi & Hall). split; [discriminate|now constructor].
    + intros (_ & Hall). now inversion Hall.
Qed.

Lemma zip_star_nth (slices : list TimeSeriesValues) (i : nat)
    (time_column : list (option float)) :
  nth_error (zip_star None slices) i = Some time_column ->
  time_column = map (fun series => nth i series None) slices.
Proof.
  destruct slices as [|s rest]; cbn [zip_star].
  - now destruct i.
  - rewrite nth_error_map, nth_error_seq.
    destruct (Nat.ltb i _); [|discriminate]. now intros [= <-].
Qed.

Lemma data_stats_loop_Ok (time_columns : list (list (option float))) :
  forall descriptors result,
    _data_stats_loop time_columns descriptors = Ok result ->
    exists appended,
      result = descriptors ++ appended /\
      Forall2 (fun c d => _data_stats_column c = Ok d) time_columns appended.
Proof.
  induction time_columns as [|c rest IH]; intros descriptors result; cbn.
  - intros [= <-]. exists []. split; [now rewrite app_nil_r|constructor].
  - destruct (_data_stats_column c) as [d|e] eqn:Hc; [|discriminate]. cbn.
    intros Hloop. destruct (IH _ _ Hloop) as (appended & -> & Hall).
    exists (d :: appended). split; [now rewrite <- app_assoc|].
    now constructor.
Qed.

Lemma data_stats_loop_Raise (time_columns : list (list (option float))) :
  forall descriptors e,
    _data_stats_loop time_columns descriptors = Raise e ->
    exists c, In c time_columns /\ _data_stats_column c = Raise e.
Proof.
  induction time_columns as [|c rest IH]; intros descriptors e; cbn;
    [discriminate|].
  destruct (_data_stats_column c) as [d|e'] eqn:Hc; cbn.
  - intros Hloop. destruct (IH _ _ Hloop) as (c' & Hin & Hc').
    exists c'. split; [now right|exact Hc'].
  - intros [= <-]. exists c. split; [now left|exact Hc].
Qed.

Lemma data_stats_column_None (time_column : list (option float)) :
  defined_values time_column = [] ->
  _data_stats_column time_column = Ok [None; None; None; None].
Proof. unfold _data_stats_column. now intros ->. Qed.

Lemma data_stats_column_Some (time_column : list (option float)) :
  let point_line := defined_values time_column in
  let average :=
    (py_sum point_line / py_float (Z.of_nat (length point_line)))%float in
  point_line <> [] ->
  exists lo hi,
    py_min point_line = Ok lo /\ py_max point_line = Ok hi /\
    _data_stats_column time_column
    = sd ← _std_dev point_line average;
      Ok [Some average; Some lo; Some hi; Some sd].
Proof.
  cbn zeta. unfold _data_stats_column.
  destruct (defined_values time_column) as [|p rest]; [contradiction|].
  intros _. do 2 eexists. split; [reflexivity|]. split; [reflexivity|].
  unfold py_div_int.
  destruct (Z.eqb_spec (Z.of_nat (length (p :: rest))) 0) as [H0|_];
    [cbn in H0; lia|].
  reflexivity.
Qed.


Lemma Forall2_nth_error {A B} (R : A -> B -> Prop) (l : list A) (k : list B) :
  Forall2 R l k ->
  forall i b, nth_error k i = Some b ->
              exists a, nth_error l i = Some a /\ R a b.
Proof.
  induction 1 as [|a b l k Hab _ IH]; intros i b'.
  - now destruct i.
  - destruct i as [|i]; cbn.
    + intros [= <-]. now exists a.
    + apply IH.
Qed.

Lemma data_stats_descriptor (slices : list TimeSeriesValues)
    (descriptors : _DataStats) :
  _data_stats slices = Ok descriptors ->
  length descriptors = length (zip_star None slices) /\
  forall i stat,
    nth_error descriptors i = Some stat ->
    _data_stats_column (map (fun series => nth i series None) slices) = Ok stat.
Proof.
  unfold _data_stats. intros Hloop.
  destruct (data_stats_loop_Ok _ _ _ Hloop) as (appended & -> & Hall).
  cbn [app]. split.
  - symmetry. eapply Forall2_length, Hall.
  - intros i stat Hi.
    destruct (Forall2_nth_error _ _ _ Hall i stat Hi) as (c & Hc & Hstat).
    now rewrite <- (zip_star_nth _ _ _ Hc).
Qed.
End StdDevFacts.

(** C3 (amended). [_std_dev] returns [abs(avg)] for a single sample. For
    [n > 1] samples it returns [sqrt(abs(sum p_i^2 - avg^2 * n) / (n - 1))],
    computed in binary64 with the operators of Python, when every square
    [p_i ** 2] and [avg ** 2] is in the range of a float; it raises
    [OverflowError] exactly when one of them is not, and raises nothing else.
    For the sample [[5.0]] it returns [5.0]; the samples [[2.0, 4.0]] have the
    mean [3.0] and, the squares of 2, 4 and 3 being the exact 4, 16 and 9, the
    deviation [sqrt(2)]. *)
Theorem std_dev_formula `{LM : Libm} :
  (forall p average, _std_dev [p] average = Ok (PrimFloat.abs average)) /\
  (forall p q rest average squares avg2,
     let point_line := p :: q :: rest in
     let n := Z.of_nat (length point_line) in
     mapM py_pow2 point_line = Ok squares ->
     py_pow2 average = Ok avg2 ->
     _std_dev point_line average
     = Ok (PrimFloat.sqrt
             (PrimFloat.abs (py_sum squares - avg2 * py_float n)
              / py_float (n - 1)))) /\
  (forall p q rest average,
     let point_line := p :: q :: rest in
     (_std_dev point_line average = Raise OverflowError <->
      (exists x, In x point_line /\ py_pow2 x = Raise OverflowError) \/
      py_pow2 average = Raise OverflowError) /\
     (forall e, _std_dev point_line average = Raise e -> e = OverflowError)) /\
  _std_dev [5%float] 5%float = Ok 5%float /\
  py_div_int (py_sum [2%float; 4%float]) 2 = Ok 3%float /\
  (py_pow2 2 = Ok 4%float -> py_pow2 4 = Ok 16%float ->
   py_pow2 3 = Ok 9%float ->
   _std_dev [2%float; 4%float] 3%float = Ok (PrimFloat.sqrt 2)).
Proof.
  split; [|split; [|split; [|split; [|split]]]].
  - intros p average. apply std_dev_single.
  - intros p q rest average squares avg2 point_line n Hsq Havg.
    subst point_line n. rewrite std_dev_many by (cbn; lia).
    unfold stdev_formula. rewrite Hsq. cbn [mbind result_bind].
    rewrite Havg. reflexivity.
  - intros p q rest average point_line. subst point_line. split.
    + rewrite std_dev_many by (cbn; lia). unfold stdev_formula.
      rewrite <- mapM_py_pow2_Raise.
      destruct (mapM py_pow2 (p :: q :: rest)) as [squares|e] eqn:Hsq;
        cbn [mbind result_bind].
      * destruct (py_pow2 average) as [avg2|e]; cbn [mbind result_bind].
        -- split; [discriminate|]. now intros [Habs|Habs].
        -- split; [now right|]. intros [Habs|Habs]; [discriminate|exact Habs].
      * pose proof (mapM_py_pow2_raises _ _ Hsq) as ->.
        split; [now left|reflexivity].
    + intros e. apply std_dev_raises. discriminate.
  - reflexivity.
  - reflexivity.
  - intros H2 H4 H3. unfold _std_dev. cbn [length Z.of_nat Pos.of_succ_nat
      Pos.succ Z.eqb py_sum_squares].
    rewrite H2. cbn [mbind result_bind]. rewrite H4. cbn [mbind result_bind].
    rewrite H3. reflexivity.
Qed.

Lemma std_dev_formula_witness :
  _std_dev [2%float; 4%float] 3%float = Ok (PrimFloat.sqrt 2).
Proof.
  apply (proj2 (proj2 (proj2 (proj2 (proj2
           (@std_dev_formula rounded_libm)))))); reflexivity.
Defined.

(** C3 as stated fails on the samples [[2^600, 2^600]]: the square of the
    first is out of the range of a float whatever the C library, and
    [_std_dev] raises [OverflowError] where the claim has it return. *)
Lemma std_dev_raises_overflow :
  ~ (exists LM : Libm,
       forall point_line average,
         point_line <> [] -> exists sd, _std_dev point_line average = Ok sd).
Proof.
  intros (LM & Hreturns).
  destruct (Hreturns [0x1p600%float; 0x1p600%float] 0x1p600%float
              ltac:(discriminate)) as (sd & Hsd).
  unfold _std_dev in Hsd. cbn [length Z.of_nat Pos.of_succ_nat Pos.succ Z.eqb
    py_sum_squares] in Hsd.
  rewrite py_pow2_huge in Hsd. discriminate.
Qed.

(** The entry of a column, from the values of the column that are defined. *)
Lemma data_stats_entry `{LM : Libm} (slices : list TimeSeriesValues)
    (descriptors : _DataStats) (i : nat) (stat : _DataStat) :
  _data_stats slices = Ok descriptors ->
  nth_error descriptors i = Some stat ->
  let point_line :=
    defined_values (map (fun series => nth i series None) slices) in
  let average :=
    (py_sum point_line / py_float (Z.of_nat (length point_line)))%float in
  (point_line = [] -> stat = [None; None; None; None]) /\
  (point_line <> [] ->
   exists lo hi sd,
     stat = [Some average; Some lo; Some hi; Some sd] /\
     py_min point_line = Ok lo /\
     py_max point_line = Ok hi /\
     _std_dev point_line average = Ok sd).
Proof.
  intros Hok Hi. cbn zeta.
  destruct (data_stats_descriptor _ _ Hok) as (_ & Hnth).
  specialize (Hnth i stat Hi). split.
  - intros Hnil. rewrite (data_stats_column_None _ Hnil) in Hnth.
    now injection Hnth.
  - intros Hne.
    destruct (data_stats_column_Some _ Hne) as (lo & hi & Hlo & Hhi & Heq).
    rewrite Heq in Hnth.
    destruct (_std_dev _ _) as [sd|e'] eqn:Hsd; [|discriminate].
    injection Hnth as <-. exists lo, hi, sd. auto.
Qed.



(** C9 as stated fails on the column [[0.1, 0.1, 0.1]]: the sum rounds up, and
    the average [0.10000000000000002] lies above the maximum. Neither depends
    on the C library. *)
Lemma data_stats_average_above_max :
  ~ (forall slices descriptors average lo hi sd,
       _data_stats slices = Ok descriptors ->
       In [Some average; Some lo; Some hi; Some sd] descriptors ->
       (lo <=? average)%float = true /\ (average <=? hi)%float = true /\
       (0 <=? sd)%float = true).
Proof.
  intros Hclaim.
  destruct (Hclaim
              [[Some 0x1.999999999999ap-4%float];
               [Some 0x1.999999999999ap-4%float];
               [Some 0x1.999999999999ap-4%float]]
              _ _ _ _ _ eq_refl (or_introl eq_refl)) as (_ & Habove & _).
  vm_compute in Habove. discriminate.
Qed.

(** [_std_dev] is not total: the square of a large sample overflows, whatever
    the C library. *)
Example std_dev_overflow `{LM : Libm} :
  _std_dev [0x1p600%float; 0x1p600%float] 0x1p600%float = Raise OverflowError.
Proof.
  unfold _std_dev. cbn [length Z.of_nat Pos.of_succ_nat Pos.succ Z.eqb
    py_sum_squares].
  now rewrite py_pow2_huge.
Qed.

(** Nor is its result always a number: the sum of two squares that are in
    range can be infinite, here with the squares rounded correctly. *)
Example std_dev_nan :
  exists sd,
    _std_dev [0x1.fp511%float; 0x1.fp511%float] 0x1.fp511%float = Ok sd /\
    PrimFloat.is_nan sd = true.
Proof. eexists. split; reflexivity. Qed.

(** C9 (amended). For every column with at least one value that is not [None],
    the entry of [_data_stats] is [[average, min, max, stdev]] where min and
    max are values of the column, [min <= x <= max] for each of its values [x]
    when none is NaN, and stdev is never below zero (it is [>= 0] or NaN). On a
    non-empty input [_std_dev] either returns or raises [OverflowError] for a
    square out of range; the [abs] keeps [sqrt] from failing. *)
Theorem data_stats_point_bounds `{LM : Libm}
    (slices : list TimeSeriesValues) (descriptors : _DataStats) (i : nat)
    (stat : _DataStat) :
  let point_line :=
    defined_values (map (fun series => nth i series None) slices) in
  _data_stats slices = Ok descriptors ->
  nth_error descriptors i = Some stat ->
  point_line <> [] ->
  (exists average lo hi sd,
     stat = [Some average; Some lo; Some hi; Some sd] /\
     In lo point_line /\ In hi point_line /\
     (Forall not_nan point_line ->
      (lo <=? hi)%float = true /\
      Forall (fun x => (lo <=? x)%float = true /\ (x <=? hi)%float = true)
        point_line) /\
     (sd <? 0)%float = false) /\
  (forall average e,
     _std_dev point_line average = Raise e -> e = OverflowError) /\
  (forall average sd,
     _std_dev point_line average = Ok sd -> (sd <? 0)%float = false).
Proof.
  cbn zeta. intros Hok Hi Hne. split; [|split].
  - destruct (data_stats_entry _ _ _ _ Hok Hi) as (_ & Hsome).
    destruct (Hsome Hne) as (lo & hi & sd & -> & Hlo & Hhi & Hsd).
    eexists _, lo, hi, sd. split; [reflexivity|].
    destruct (py_min_max_members _ _ _ Hlo Hhi) as (Hinlo & Hinhi).
    split; [exact Hinlo|]. split; [exact Hinhi|]. split.
    + intros Hnan. now apply py_min_max_spec.
    + exact (std_dev_not_negative _ _ _ Hne Hsd).
  - intros average e. now apply std_dev_raises.
  - intros average sd. now apply std_dev_not_negative.
Qed.

Lemma data_stats_point_bounds_witness :
  exists average lo hi sd,
    nth_error [[Some average; Some lo; Some hi; Some sd]] 0
    = Some [Some average; Some lo; Some hi; Some sd] /\
    _data_stats [[Some 2%float]; [Some 4%float]]
    = Ok [[Some average; Some lo; Some hi; Some sd]] /\
    (lo <=? hi)%float = true /\ (sd <? 0)%float = false.
Proof.
  exists 3%float, 2%float, 4%float, (PrimFloat.sqrt 2).
  split; [reflexivity|]. split; [reflexivity|].
  destruct (@data_stats_point_bounds rounded_libm
              [[Some 2%float]; [Some 4%float]]
              [[Some 3%float; Some 2%float; Some 4%float;
                Some (PrimFloat.sqrt 2)]]
              0 _ eq_refl eq_refl ltac:(discriminate))
    as ((average & lo & hi & sd & [= <- <- <- <-] & _ & _ & Hrange & Hsd) & _).
  split; [|exact Hsd].
  apply Hrange. repeat constructor.
Defined.

(** ** Configuration values *)

(** A tuple differs from the list JSON turns it into, so parameters are
    compared after the round trip; numbers compare by value and dicts
    whatever the order of their entries. *)
Example tuple_differs_from_list :
  py_eq (PTuple [PInt 110; PInt 120]) (jsonize (PTuple [PInt 110; PInt 120]))
  = false.
Proof. reflexivity. Qed.

Example jsonize_idempotent_on_sample :
  jsonize (jsonize (PDict sample_params)) = jsonize (PDict sample_params).
Proof. reflexivity. Qed.

Example py_eq_numbers_and_dicts :
  py_eq (PDict [("a", PInt 1); ("b", PFloat 2.5)])
    (PDict [("b", PFloat 2.5); ("a", PFloat 1)]) = true /\
  py_eq (PInt 1) (PBool true) = true /\
  py_eq (PFloat nan) (PFloat nan) = false /\
  py_eq (PStr "1") (PInt 1) = false.
Proof. repeat split; reflexivity. Qed.

(** NaN differs from itself, but the NaN of the decoder is one object: inside
    a dict or a list it equals itself. *)
Example py_eq_nan_in_containers :
  py_eq (PDict [("factor", PFloat nan)]) (PDict [("factor", PFloat nan)])
  = true /\
  py_eq (PList [PFloat nan; PInt 1]) (PList [PFloat nan; PInt 1]) = true /\
  py_eq (PList [PFloat nan]) (PList [PFloat 1]) = false.
Proof. repeat split; reflexivity. Qed.

(** The index of the reference point is the true quotient of two ints,
    rounded once and truncated, whatever their size. *)
Example py_int_truediv_large_step :
  py_int_truediv 44800 3600 = Ok 12 /\
  py_int_truediv 44800 (2 ^ 63 + 3600) = Ok 0 /\
  py_int_truediv 44800 (2 ^ 63) = Ok 0 /\
  py_int_truediv (- 1) 3 = Ok 0 /\
  py_int_truediv 1 0 = Raise ZeroDivisionError /\
  py_int_truediv (2 ^ 1024) 1 = Raise OverflowError.
Proof. repeat split; vm_compute; reflexivity. Qed.

(** ** Cache freshness *)

Section CacheFacts.
Context `{LT : LocalTime} `{CO : Collaborators}.

Lemma is_prediction_up_to_date_absent pred_file timegroup params w :
  retrieve_info_for_prediction (pred_file ++ ".info") timegroup (fs w) = None ->
  _is_prediction_up_to_date pred_file timegroup params w
  = (Ok false, observed (EvRetrieve (pred_file ++ ".info") timegroup) w).
Proof.
  intros Habs. unfold _is_prediction_up_to_date. unfold_io.
  rewrite Habs. reflexivity.
Qed.

Lemma is_prediction_up_to_date_present pred_file timegroup params w last_info
    period_info :
  retrieve_info_for_prediction (pred_file ++ ".info") timegroup (fs w)
  = Some last_info ->
  period_info_of params = Ok period_info ->
  _is_prediction_up_to_date pred_file timegroup params w
  = (Ok (Qle_bool (clock w)
           (inject_Z (info_time last_info
                      + valid period_info * slice period_info))
         && py_eq (default PNone (info_params last_info))
              (jsonize (PDict params))),
     observed (EvRetrieve (pred_file ++ ".info") timegroup) w).
Proof.
  intros Hinfo Hperiod. unfold _is_prediction_up_to_date, Qltb. unfold_io.
  rewrite Hinfo, Hperiod. cbn [clock].
  destruct (Qle_bool _ _); cbn; [|reflexivity].
  unfold default.
  destruct (py_eq _ _); reflexivity.
Qed.

Lemma period_info_of_wday params :
  assoc "period" params = Some (PStr "wday") ->
  period_info_of params = Ok (Build_PeriodInfo 86400 _group_by_wday 7).
Proof.
  intros Hp. unfold period_info_of, py_getitem. rewrite Hp. reflexivity.
Qed.

End CacheFacts.

(** C4 (amended). [_is_prediction_up_to_date] returns false when the metadata
    is absent, false when [computed_at + valid_slice_count * slice_length] is
    before now, false when the stored parameters differ from the current ones
    after the JSON round trip even if the time is fresh, and true otherwise.
    With [computed_at = T0] and the weekday period (7 slices of 86400 seconds)
    and matching parameters, the cache is fresh for every
    [now <= T0 + 7 * 86400], that instant included, and stale after it. *)
Theorem is_prediction_up_to_date_spec `{LT : LocalTime} `{CO : Collaborators}
    (pred_file : string) (timegroup : Timegroup)
    (params : _PredictionParameters) (w : World) :
  let result := fst (_is_prediction_up_to_date pred_file timegroup params w) in
  let retrieved :=
    retrieve_info_for_prediction (pred_file ++ ".info") timegroup (fs w) in
  (retrieved = None -> result = Ok false) /\
  (forall last_info period_info,
     retrieved = Some last_info ->
     period_info_of params = Ok period_info ->
     let expiry :=
       info_time last_info + valid period_info * slice period_info in
     let same_params :=
       py_eq (default PNone (info_params last_info)) (jsonize (PDict params)) in
     ((inject_Z expiry < clock w)%Q -> result = Ok false) /\
     (same_params = false -> result = Ok false) /\
     ((clock w <= inject_Z expiry)%Q -> same_params = true -> result = Ok true)) /\
  (forall last_info T0,
     retrieved = Some last_info ->
     info_time last_info = T0 ->
     assoc "period" params = Some (PStr "wday") ->
     py_eq (default PNone (info_params last_info)) (jsonize (PDict params))
     = true ->
     ((clock w <= inject_Z (T0 + 7 * 86400))%Q -> result = Ok true) /\
     ((inject_Z (T0 + 7 * 86400) < clock w)%Q -> result = Ok false)).
Proof.
  cbn zeta. split; [|split].
  - intros Habs. now rewrite is_prediction_up_to_date_absent.
  - intros last_info period_info Hinfo Hperiod.
    rewrite (is_prediction_up_to_date_present _ _ _ _ _ _ Hinfo Hperiod).
    cbn [fst]. split; [|split].
    + intros Hlt. apply Qlt_not_le in Hlt.
      destruct (Qle_bool _ _) eqn:Hle; [|reflexivity].
      apply Qle_bool_iff in Hle. contradiction.
    + intros ->. now rewrite andb_false_r.
    + intros Hle ->. apply Qle_bool_iff in Hle. now rewrite Hle.
  - intros last_info T0 Hinfo <- Hwday Hsame.
    rewrite (is_prediction_up_to_date_present _ _ _ _ _ _ Hinfo
               (period_info_of_wday _ Hwday)).
    cbn [fst valid slice]. rewrite Hsame, andb_true_r. split.
    + intros Hle. apply Qle_bool_iff in Hle. now rewrite Hle.
    + intros Hlt. apply Qlt_not_le in Hlt.
      destruct (Qle_bool _ _) eqn:Hle; [|reflexivity].
      apply Qle_bool_iff in Hle. contradiction.
Qed.

Lemma is_prediction_up_to_date_spec_witness :
  fst (_is_prediction_up_to_date "/p/sunday" "sunday" sample_params
         (world_with_info 1600000000 (Some (jsonize (PDict sample_params)))
            (inject_Z (1600000000 + 3 * 86400))))
  = Ok true.
Proof.
  refine (proj1 (proj2 (proj2 (@is_prediction_up_to_date_spec utc memory_store
            "/p/sunday" "sunday" sample_params
            (world_with_info 1600000000 (Some (jsonize (PDict sample_params)))
               (inject_Z (1600000000 + 3 * 86400)))))
            _ 1600000000 eq_refl eq_refl eq_refl eq_refl) _).
  vm_compute. discriminate.
Defined.

(** C4 as stated fails at the instant [T0 + 7 * 86400] itself: with matching
    parameters the cache is still fresh there. *)
Lemma is_prediction_up_to_date_fresh_at_expiry :
  ~ (forall now : Q,
       (inject_Z (1600000000 + 7 * 86400) <= now)%Q ->
       fst (_is_prediction_up_to_date "/p/sunday" "sunday" sample_params
              (world_with_info 1600000000
                 (Some (jsonize (PDict sample_params))) now))
       = Ok false).
Proof.
  intros Hstale.
  specialize (Hstale (inject_Z (1600000000 + 7 * 86400)) (Qle_refl _)).
  vm_compute in Hstale. discriminate.
Qed.

(** Parameters that hold a NaN match the stored ones: after the round trip
    both hold the NaN of the decoder, and a dict compares its values by
    identity first. *)
Example is_prediction_up_to_date_nan_params :
  let params :=
    [("period", PStr "wday"); ("horizon", PInt 90);
     ("levels_upper", PTuple [PStr "absolute"; PTuple [PFloat nan; PInt 120]])]
  in
  fst (_is_prediction_up_to_date "/p/sunday" "sunday" params
         (world_with_info 1600000000 (Some (jsonize (PDict params)))
            (inject_Z (1600000000 + 3 * 86400))))
  = Ok true.
Proof. vm_compute. reflexivity. Qed.

(** ** The resampler *)

(** C5. For a non-empty list of windows the resampler raises
    [NoHistoricDataError] exactly when the native step of the series fetched
    for the first window is zero. Otherwise it raises nothing and returns that
    series' native twindow with every series resampled to it, shifted by the
    first window's start minus its own window's start. *)
Theorem retrieve_grouped_data_no_history `{CO : Collaborators}
    (rrd_column : RRDColumnFunction) (time_windows : _TimeSlices)
    (first : Timestamp * Timestamp) :
  time_windows <> [] ->
  head time_windows = Some first ->
  let native := twindow (rrd_column (fst first) (snd first)) in
  let result := _retrieve_grouped_data_from_rrd rrd_column time_windows in
  (result = Raise NoHistoricDataError <-> snd native = 0) /\
  (forall e, result = Raise e -> e = NoHistoricDataError) /\
  (snd native <> 0 ->
   result
   = Ok (native,
         map (fun w : Timestamp * Timestamp =>
                bfill_upsample (rrd_column (fst w) (snd w)) native
                  (fst first - fst w))
           time_windows)).
Proof.
  intros _ Hhead.
  destruct time_windows as [|[start end_] rest]; [discriminate|].
  injection Hhead as <-. cbn zeta. cbn [fst snd].
  unfold _retrieve_grouped_data_from_rrd. rewrite py_index_head.
  cbn [mbind result_bind map]. rewrite py_index_head.
  cbn [mbind result_bind map fst snd].
  set (native := twindow (rrd_column start end_)).
  assert (Hmap :
    map (fun sl : TimeSeries * Seconds =>
           let '(ts, shift) := sl in bfill_upsample ts native shift)
      (map (fun w : Timestamp * Timestamp =>
              let '(start0, end0) := w in
              (rrd_column start0 end0, start - start0)) rest)
    = map (fun w : Timestamp * Timestamp =>
             bfill_upsample (rrd_column (fst w) (snd w)) native
               (start - fst w)) rest).
  { rewrite map_map. apply map_ext. now intros [s e]. }
  destruct (Z.eqb_spec (snd native) 0) as [Hz|Hnz].
  - split; [tauto|]. split; [|contradiction]. now intros e [= <-].
  - split; [|split].
    + split; [discriminate|contradiction].
    + discriminate.
    + intros _. now rewrite Hmap.
Qed.

Lemma retrieve_grouped_data_no_history_witness :
  _retrieve_grouped_data_from_rrd constant_rrd
    [(1599955200, 1600041600); (1599350400, 1599436800)]
  = Ok ((1599955200, 1600041600, 3600),
        [repeat (Some 100%float) 24; repeat (Some 100%float) 24]).
Proof.
  refine (proj2 (proj2 (@retrieve_grouped_data_no_history memory_store
            constant_rrd [(1599955200, 1600041600); (1599350400, 1599436800)]
            (1599955200, 1600041600) _ eq_refl)) _); discriminate.
Defined.

(** ** The prediction summary *)

(** C8. Every summary that [_calculate_data_for_prediction] produces has
    [num_points] equal to the number of its points, exactly the columns
    average, min, max and stdev, the first two components of the common
    twindow as [data_twindow] and its third component as [step]. *)
Theorem calculate_data_for_prediction_summary `{CO : Collaborators}
    `{LM : Libm} (time_windows : _TimeSlices) (rrd_datacolumn : RRDColumnFunction)
    (summary : _PredictionData) :
  _calculate_data_for_prediction time_windows rrd_datacolumn = Ok summary ->
  exists common slices,
    _retrieve_grouped_data_from_rrd rrd_datacolumn time_windows
    = Ok (common, slices) /\
    _data_stats slices = Ok (points summary) /\
    num_points summary = Z.of_nat (length (points summary)) /\
    columns summary = ["average"; "min"; "max"; "stdev"] /\
    data_twindow summary = [fst (fst common); snd (fst common)] /\
    step summary = snd common.
Proof.
  unfold _calculate_data_for_prediction. intros Hcalc.
  apply rbind_Ok in Hcalc as ([common slices] & Hretrieve & Hcalc).
  apply rbind_Ok in Hcalc as (descriptors & Hstats & [= <-]).
  exists common, slices. cbn [points num_points columns data_twindow step].
  repeat split; assumption.
Qed.

Lemma calculate_data_for_prediction_summary_witness :
  exists summary,
    _calculate_data_for_prediction
      [(1599955200, 1600041600); (1599350400, 1599436800)] constant_rrd
    = Ok summary /\
    num_points summary = Z.of_nat (length (points summary)) /\
    data_twindow summary = [1599955200; 1600041600] /\
    step summary = 3600.
Proof.
  destruct (_calculate_data_for_prediction
              [(1599955200, 1600041600); (1599350400, 1599436800)] constant_rrd)
    as [summary|e] eqn:Hcalc; [|vm_compute in Hcalc; discriminate].
  exists summary. split; [reflexivity|].
  destruct (@calculate_data_for_prediction_summary memory_store rounded_libm
              _ _ _ Hcalc)
    as (common & slices & Hretrieve & _ & Hnum & _ & Hwin & Hstep).
  vm_compute in Hretrieve. injection Hretrieve as <- _.
  split; [exact Hnum|]. split; [exact Hwin|exact Hstep].
Defined.

(** ** The entry point *)

Section EntryPoint.
Context `{LT : LocalTime} `{CO : Collaborators} `{LM : Libm}.

(** A period that is none of the four of the table: the lookup fails, with
    [KeyError] for a period that is missing or unknown and [TypeError] for one
    that cannot be a key. *)
Lemma period_info_of_unknown (params : _PredictionParameters) :
  assoc "period" params <> Some (PStr "wday") ->
  assoc "period" params <> Some (PStr "day") ->
  assoc "period" params <> Some (PStr "hour") ->
  assoc "period" params <> Some (PStr "minute") ->
  exists e,
    period_info_of params = Raise e /\
    LookupFailure e /\
    (assoc "period" params = None -> e = KeyError (PStr "period")) /\
    (forall period,
       assoc "period" params = Some period ->
       e = if py_hashable period then KeyError period else TypeError).
Proof.
  intros Hw Hd Hh Hm. unfold period_info_of, py_getitem.
  destruct (assoc "period" params) as [period|].
  - cbn. unfold _PREDICTION_PERIODS_getitem.
    destruct (py_hashable period) eqn:Hhash; cbn.
    + assert (Hkey : match period with
                     | PStr name =>
                         match _PREDICTION_PERIODS !! name with
                         | Some period_info => Ok period_info
                         | None => Raise (KeyError period)
                         end
                     | _ => Raise (KeyError period)
                     end = Raise (KeyError period)).
      { destruct period as [| | | |name| | |]; try reflexivity.
        now rewrite prediction_periods_None by congruence. }
      rewrite Hkey. eexists. split; [reflexivity|].
      split; [left; eexists; reflexivity|]. split; [discriminate|].
      intros period' [= <-]. now rewrite Hhash.
    + eexists. split; [reflexivity|]. split; [now right|].
      split; [discriminate|]. intros period' [= <-]. now rewrite Hhash.
  - eexists. split; [reflexivity|]. split; [left; eexists; reflexivity|].
    split; [reflexivity|discriminate].
Qed.

(** [get_levels] up to the point where the summary is computed anew. *)
Lemma get_levels_cache_miss hostname service_description dsname params cf
    levels_factor w period_info timegroup rel_time w2 :
  let now := py_int_Q (clock w) in
  let pred_dir := predictions_dir hostname service_description dsname in
  let pred_file := os_path_join pred_dir timegroup in
  period_info_of params = Ok period_info ->
  groupby period_info now = Ok (timegroup, rel_time) ->
  cached_prediction pred_file timegroup params (prepared pred_dir pred_file w)
  = (Ok None, w2) ->
  forall e w3,
    computed_prediction hostname service_description dsname params cf now
      period_info timegroup pred_file w2 = (Raise e, w3) ->
    get_levels hostname service_description dsname params cf levels_factor w
    = (Raise e, w3).
Proof.
  cbn zeta. intros Hperiod Hgroup Hcached e w3 Hcomputed.
  unfold get_levels. unfold_io.
  rewrite Hperiod, Hgroup. cbn [fs clock trace].
  unfold prepared in Hcached. rewrite Hcached, Hcomputed. reflexivity.
Qed.

End EntryPoint.

(** The example of the specification: a metric that is constantly 100, the
    period by day of the month and a horizon of 8 days. One slice falls on the
    day of the month of the query, and the reference average is 100. *)
Example get_levels_constant_metric :
  fst (get_levels "host" "CPU load" "load1"
         [("period", PStr "day"); ("horizon", PInt 8)] "MAX" 1%float
         (empty_world (inject_Z 1600000000)))
  = Ok (Some 100%float, tt).
Proof. vm_compute. reflexivity. Qed.

(** C7 (amended). For every [params] whose period is none of wday, day, hour
    and minute, [get_levels] raises the error of the failed lookup
    [_PREDICTION_PERIODS[params["period"]]]: [KeyError] with the key
    ["period"] when the parameters have no period, [KeyError] with the period
    when it is no key of the table, [TypeError] when it cannot be hashed. It
    leaves the world as it was: no directory is made and no cache file is
    read, cleaned or written. *)
Theorem get_levels_unknown_period `{LT : LocalTime} `{CO : Collaborators}
    `{LM : Libm} (hostname : HostName) (service_description : ServiceName)
    (dsname : MetricName) (params : _PredictionParameters)
    (cf : ConsolidationFunctionName) (levels_factor : float) (w : World) :
  assoc "period" params <> Some (PStr "wday") ->
  assoc "period" params <> Some (PStr "day") ->
  assoc "period" params <> Some (PStr "hour") ->
  assoc "period" params <> Some (PStr "minute") ->
  exists e,
    get_levels hostname service_description dsname params cf levels_factor w
    = (Raise e, w) /\
    (assoc "period" params = None -> e = KeyError (PStr "period")) /\
    (forall period,
       assoc "period" params = Some period ->
       e = if py_hashable period then KeyError period else TypeError).
Proof.
  intros Hw Hd Hh Hm.
  destruct (period_info_of_unknown params Hw Hd Hh Hm)
    as (e & Hperiod & _ & Hnone & Hsome).
  exists e. split; [|split; assumption].
  unfold get_levels. unfold_io. now rewrite Hperiod.
Qed.

Lemma get_levels_unknown_period_witness :
  exists e,
    get_levels "host" "CPU load" "load1"
      [("period", PStr "week"); ("horizon", PInt 90)] "MAX" 1%float
      (world_with_info 1600000000 None (inject_Z 1600000000))
    = (Raise e, world_with_info 1600000000 None (inject_Z 1600000000)) /\
    e = KeyError (PStr "week").
Proof.
  destruct (@get_levels_unknown_period utc memory_store rounded_libm
              "host" "CPU load" "load1"
              [("period", PStr "week"); ("horizon", PInt 90)] "MAX" 1%float
              (world_with_info 1600000000 None (inject_Z 1600000000))
              ltac:(discriminate) ltac:(discriminate) ltac:(discriminate)
              ltac:(discriminate))
    as (e & Hraise & _ & Hkey).
  exists e. split; [exact Hraise|]. exact (Hkey (PStr "week") eq_refl).
Defined.

(** C7 as stated fails for the period ["week"]: the module has no error of
    its own for a bad configuration and does not check the period, so what
    [get_levels] raises is the [KeyError] of the lookup. *)
Lemma get_levels_unknown_period_key_error :
  ~ (forall params : _PredictionParameters,
       assoc "period" params <> Some (PStr "wday") ->
       assoc "period" params <> Some (PStr "day") ->
       assoc "period" params <> Some (PStr "hour") ->
       assoc "period" params <> Some (PStr "minute") ->
       exists e w',
         get_levels "host" "CPU load" "load1" params "MAX" 1%float
           (empty_world (inject_Z 1600000000))
         = (Raise e, w') /\
         exn_class e = "ConfigurationError").
Proof.
  intros Hclaim.
  destruct (Hclaim [("period", PStr "week"); ("horizon", PInt 90)]
              ltac:(discriminate) ltac:(discriminate) ltac:(discriminate)
              ltac:(discriminate)) as (e & w' & Hraise & Hclass).
  vm_compute in Hraise. injection Hraise as <- _. discriminate.
Qed.

(** A horizon that is not positive leaves no step to resolve. *)
Lemma time_slices_no_horizon `{LT : LocalTime} (timestamp : Timestamp)
    (horizon : Seconds) (period_info : _PeriodInfo) (timegroup : Timegroup) :
  horizon <= 0 -> 0 < slice period_info ->
  _time_slices timestamp horizon period_info timegroup = Ok [].
Proof.
  intros Hh Hs.
  destruct (py_range_down timestamp (timestamp - horizon) _ Hs)
    as (begins & Hrange & Hin & _).
  unfold _time_slices. rewrite Hrange.
  destruct begins as [|b rest]; [reflexivity|].
  destruct (proj1 (Hin b) (or_introl eq_refl)) as (k & Hk & -> & Hlt). nia.
Qed.

(** C10. The resampler needs a first window: on the empty list it fails with
    [IndexError]. So does [get_levels] when the cache gives no summary and the
    slice collector returns no window; the error is not
    [NoHistoricDataError]. *)
Theorem get_levels_no_window `{LT : LocalTime} `{CO : Collaborators}
    `{LM : Libm} (hostname : HostName) (service_description : ServiceName)
    (dsname : MetricName) (params : _PredictionParameters)
    (cf : ConsolidationFunctionName) (levels_factor : float) (w : World)
    (period_info : _PeriodInfo) (timegroup : Timegroup) (rel_time : Seconds)
    (horizon : pyval) (seconds : Seconds) (w2 : World) :
  let now := py_int_Q (clock w) in
  let pred_dir := predictions_dir hostname service_description dsname in
  let pred_file := os_path_join pred_dir timegroup in
  period_info_of params = Ok period_info ->
  groupby period_info now = Ok (timegroup, rel_time) ->
  cached_prediction pred_file timegroup params (prepared pred_dir pred_file w)
  = (Ok None, w2) ->
  py_getitem params "horizon" = Ok horizon ->
  horizon_seconds horizon = Ok seconds ->
  _time_slices now seconds period_info timegroup = Ok [] ->
  (forall rrd_column,
     _retrieve_grouped_data_from_rrd rrd_column [] = Raise IndexError) /\
  (exists w3,
     get_levels hostname service_description dsname params cf levels_factor w
     = (Raise IndexError, w3)) /\
  IndexError <> NoHistoricDataError.
Proof.
  cbn zeta. intros Hperiod Hgroup Hcached Hhorizon Hseconds Hslices.
  split; [|split].
  - intros rrd_column. unfold _retrieve_grouped_data_from_rrd.
    now rewrite py_index_nil.
  - eexists.
    eapply (get_levels_cache_miss _ _ _ _ _ _ _ _ _ _ _ Hperiod Hgroup Hcached).
    unfold computed_prediction. unfold_io.
    rewrite Hhorizon, Hseconds, Hslices.
    unfold _calculate_data_for_prediction, _retrieve_grouped_data_from_rrd.
    rewrite py_index_nil. reflexivity.
  - discriminate.
Qed.

Lemma get_levels_no_window_witness :
  exists w3,
    get_levels "host" "CPU load" "load1"
      [("period", PStr "wday"); ("horizon", PInt 0)] "MAX" 1%float
      (empty_world (inject_Z 1600000000))
    = (Raise IndexError, w3).
Proof.
  refine (proj1 (proj2 (@get_levels_no_window utc memory_store rounded_libm
            "host" "CPU load" "load1"
            [("period", PStr "wday"); ("horizon", PInt 0)] "MAX" 1%float
            (empty_world (inject_Z 1600000000)) wday_info "sunday" 44800
            (PInt 0) 0 _ eq_refl eq_refl _ eq_refl eq_refl eq_refl))).
  vm_compute. reflexivity.
Defined.


(** * Further properties of the module *)

(** ** Alignment of the windows *)

Lemma mod_sub_mod (a span : Z) : span <> 0 -> (a - a mod span) mod span = 0.
Proof.
  intros Hs. rewrite Zminus_mod_idemp_r, Z.sub_diag. apply Z.mod_0_l. exact Hs.
Qed.

(** X1. [_window_start] fails exactly on a zero span. For a positive span the
    offset lies in [[0, span)], and the timestamp less the offset falls on the
    grid of the span in local time. *)
Theorem window_start_aligned `{LT : LocalTime} (timestamp span : Z) :
  (_window_start timestamp span = Raise ZeroDivisionError <-> span = 0) /\
  (0 < span ->
   exists offset,
     _window_start timestamp span = Ok offset /\
     0 <= offset < span /\
     (timestamp - offset - timezone_at timestamp) mod span = 0).
Proof.
  unfold _window_start. destruct (Z.eqb_spec span 0) as [->|Hne]; split.
  - tauto.
  - lia.
  - split; [discriminate|contradiction].
  - intros Hpos. eexists. split; [reflexivity|]. split.
    + now apply Z.mod_pos_bound.
    + replace (timestamp - (timestamp - timezone_at timestamp) mod span
               - timezone_at timestamp)
        with (timestamp - timezone_at timestamp
              - (timestamp - timezone_at timestamp) mod span) by lia.
      now apply mod_sub_mod.
Qed.

Lemma window_start_aligned_witness :
  exists offset,
    _window_start (LT := utc) 1600000000 3600 = Ok offset /\
    0 <= offset < 3600 /\
    (1600000000 - offset - timezone_at 1600000000) mod 3600 = 0.
Proof.
  apply (proj2 (@window_start_aligned utc 1600000000 3600)). lia.
Defined.

(** X2. Under a period of the table, every timestamp of a window that has the
    UTC offset of the resolved one resolves to the same window, at the offset
    of its distance from the start: the windows partition the time line. *)
Theorem get_prediction_timegroup_same_window `{LT : LocalTime}
    (period : string) (period_info : _PeriodInfo) (t t' : Timestamp)
    (timegroup : Timegroup) (slice_start slice_end offset : Z) :
  _PREDICTION_PERIODS !! period = Some period_info ->
  _get_prediction_timegroup t period_info
  = Ok (timegroup, slice_start, slice_end, offset) ->
  timezone_at t' = timezone_at t ->
  slice_start <= t' < slice_end ->
  exists timegroup',
    _get_prediction_timegroup t' period_info
    = Ok (timegroup', slice_start, slice_end, t' - slice_start).
Proof.
  intros Hl Ht Htz Hin.
  destruct (get_prediction_timegroup_supported _ _ t Hl) as (tg & Hr).
  destruct (get_prediction_timegroup_supported _ _ t' Hl) as (tg' & Hr').
  destruct (groupby_supported _ _ t Hl) as (Hpos & _).
  rewrite Hr in Ht. injection Ht as _ <- <- <-.
  exists tg'. rewrite Hr', Htz.
  set (s := slice period_info) in *. set (c := timezone_at t) in *.
  clearbody s c.
  assert (Hoff : (t' - c) mod s = t' - (t - (t - c) mod s)).
  { pose proof (Z.div_mod (t - c) s ltac:(lia)) as Hdm.
    symmetry. apply (Z.mod_unique_pos _ _ ((t - c) / s)).
    - clear Hdm. lia.
    - revert Hdm. generalize ((t - c) / s) ((t - c) mod s). intros q r Hdm.
      lia. }
  rewrite Hoff. generalize ((t - c) mod s). intros m.
  replace (t' - (t' - (t - m))) with (t - m) by lia. reflexivity.
Qed.

Lemma get_prediction_timegroup_same_window_witness :
  exists timegroup',
    _get_prediction_timegroup 1599960000 wday_info
    = Ok (timegroup', 1599955200, 1600041600, 1599960000 - 1599955200).
Proof.
  apply (@get_prediction_timegroup_same_window utc "wday" wday_info
           1600000000 1599960000 "sunday" 1599955200 1600041600 44800);
    [reflexivity|reflexivity|reflexivity|lia].
Defined.

(** ** The windows of the historical slices *)

Section MoreTimeSlices.
Context `{LT : LocalTime}.

(** The steps of [_time_slices]: [n] of them, counted from [timestamp]. *)
Lemma time_slices_steps (period : string) (period_info : _PeriodInfo)
    (timestamp : Timestamp) (horizon : Seconds) (timegroup : Timegroup) :
  _PREDICTION_PERIODS !! period = Some period_info ->
  let n := Z.to_nat (if 0 <? horizon
                     then (horizon - 1) / slice period_info + 1 else 0) in
  exists resolved,
    Forall2 (fun b r => _get_prediction_timegroup b period_info = Ok r)
      (map (fun i => timestamp - Z.of_nat i * slice period_info) (seq 0 n))
      resolved /\
    _time_slices timestamp horizon period_info timegroup
    = Ok (map resolved_window
            (List.filter
               (fun r => String.eqb (resolved_timegroup r) timegroup)
               resolved)).
Proof.
  intros Hl. cbn zeta.
  destruct (groupby_supported _ _ timestamp Hl) as (Hpos & _).
  set (begins := map _ _).
  destruct (resolve_all _ _ begins Hl) as (resolved & Hres).
  exists resolved. split; [exact Hres|].
  unfold _time_slices, py_range.
  destruct (Z.eqb_spec (- slice period_info) 0) as [?|_]; [lia|].
  destruct (Z.ltb_spec 0 (- slice period_info)) as [?|_]; [lia|].
  rewrite Z.opp_involutive. unfold range_len.
  replace (timestamp - horizon <? timestamp) with (0 <? horizon)
    by (destruct (Z.ltb_spec 0 horizon), (Z.ltb_spec (timestamp - horizon) timestamp);
        reflexivity || lia).
  replace (timestamp - (timestamp - horizon) - 1) with (horizon - 1) by lia.
  cbn [mbind result_bind].
  replace (map (fun i : nat => timestamp + Z.of_nat i * - slice period_info) _)
    with begins.
  - now rewrite (time_slices_loop_resolved _ _ _ _ [] Hres).
  - subst begins. apply map_ext. intros i. lia.
Qed.

(** Where the window of a step lies. *)
Lemma step_window (period : string) (period_info : _PeriodInfo) (b : Z)
    (r : Timegroup * Timestamp * Timestamp * Seconds) :
  _PREDICTION_PERIODS !! period = Some period_info ->
  _get_prediction_timegroup b period_info = Ok r ->
  fst (resolved_window r) = b - (b - timezone_at b) mod slice period_info /\
  snd (resolved_window r) = fst (resolved_window r) + slice period_info /\
  b - slice period_info < fst (resolved_window r) <= b.
Proof.
  intros Hl Hr.
  destruct (get_prediction_timegroup_supported _ _ b Hl) as (tg & Hr').
  destruct (groupby_supported _ _ b Hl) as (Hpos & _).
  rewrite Hr' in Hr. injection Hr as <-. cbn.
  pose proof (Z.mod_pos_bound (b - timezone_at b) (slice period_info) Hpos).
  lia.
Qed.

Lemma filter_windows_sorted (R : Timestamp * Timestamp -> Timestamp * Timestamp -> Prop)
    (keep : Timegroup * Timestamp * Timestamp * Seconds -> bool)
    (resolved : list (Timegroup * Timestamp * Timestamp * Seconds)) :
  StronglySorted R (map resolved_window resolved) ->
  StronglySorted R (map resolved_window (List.filter keep resolved)).
Proof.
  induction resolved as [|r resolved IH]; cbn; [constructor|].
  intros Hs. inversion Hs as [|? ? Hs' Hall]; subst.
  destruct (keep r); cbn; [|now apply IH].
  constructor; [now apply IH|].
  rewrite List.Forall_forall in *. intros w Hw. apply Hall.
  apply in_map_iff in Hw as (r' & <- & Hr'). apply filter_In in Hr' as (Hr' & _).
  now apply in_map.
Qed.

(** The windows of [n] steps counted from the step [lo]: later steps have
    earlier windows, and each window lies less than a slice before its step. *)
Lemma steps_windows_sorted (period : string) (period_info : _PeriodInfo)
    (timestamp : Timestamp) :
  _PREDICTION_PERIODS !! period = Some period_info ->
  forall n lo resolved,
    Forall2 (fun b r => _get_prediction_timegroup b period_info = Ok r)
      (map (fun i => timestamp - Z.of_nat i * slice period_info) (seq lo n))
      resolved ->
    StronglySorted (fun w1 w2 : Timestamp * Timestamp => fst w2 < fst w1)
      (map resolved_window resolved) /\
    Forall (fun r =>
              snd (resolved_window r)
              = fst (resolved_window r) + slice period_info /\
              fst (resolved_window r)
              <= timestamp - Z.of_nat lo * slice period_info /\
              timestamp - Z.of_nat (lo + n) * slice period_info
              < fst (resolved_window r))
      resolved.
Proof.
  intros Hl. destruct (groupby_supported _ _ timestamp Hl) as (Hpos & _).
  induction n as [|n IH]; intros lo resolved Hres; cbn [seq map] in Hres;
    inversion Hres as [|b r bs rs Hr Hrest]; subst; cbn [map].
  - split; constructor.
  - destruct (IH (S lo) rs Hrest) as (Hsorted & Hall).
    destruct (step_window _ _ _ _ Hl Hr) as (_ & Hend & Hstart).
    split.
    + constructor; [exact Hsorted|].
      rewrite List.Forall_forall in *. intros w Hw.
      apply in_map_iff in Hw as (r' & <- & Hr').
      destruct (Hall r' Hr') as (_ & Hle & _).
      revert Hle Hstart.
      generalize (fst (resolved_window r')) (fst (resolved_window r)).
      intros st' st Hle Hstart. lia.
    + constructor.
      * split; [exact Hend|]. revert Hstart.
        generalize (fst (resolved_window r)). intros st Hstart.
        split; [lia|nia].
      * rewrite List.Forall_forall in *. intros r' Hr'.
        destruct (Hall r' Hr') as (He & Hle & Hlt).
        split; [exact He|]. split.
        -- revert Hle. generalize (fst (resolved_window r')). intros st' Hle.
           lia.
        -- replace (lo + S n)%nat with (S lo + n)%nat by lia. exact Hlt.
Qed.

(** With one UTC offset [c] throughout, the window of the step [i] lies [i]
    slices before the window of [timestamp]. *)
Lemma steps_windows_grid (period : string) (period_info : _PeriodInfo)
    (timestamp c : Z) :
  _PREDICTION_PERIODS !! period = Some period_info ->
  (forall t, timezone_at t = c) ->
  forall n lo resolved,
    Forall2 (fun b r => _get_prediction_timegroup b period_info = Ok r)
      (map (fun i => timestamp - Z.of_nat i * slice period_info) (seq lo n))
      resolved ->
    Forall (fun r =>
              exists k, Z.of_nat lo <= k /\
                resolved_window r
                = (timestamp - (timestamp - c) mod slice period_info
                   - k * slice period_info,
                   timestamp - (timestamp - c) mod slice period_info
                   - k * slice period_info + slice period_info))
      resolved.
Proof.
  intros Hl Htz. destruct (groupby_supported _ _ timestamp Hl) as (Hpos & _).
  induction n as [|n IH]; intros lo resolved Hres; cbn [seq map] in Hres;
    inversion Hres as [|b r bs rs Hr Hrest]; subst; [constructor|].
  constructor.
  - destruct (step_window _ _ _ _ Hl Hr) as (Hstart & Hend & _).
    exists (Z.of_nat lo). split; [lia|].
    destruct (resolved_window r) as [s e]. cbn [fst snd] in *.
    rewrite Htz in Hstart.
    replace (timestamp - Z.of_nat lo * slice period_info - c)
      with (timestamp - c + (- Z.of_nat lo) * slice period_info) in Hstart by lia.
    rewrite Z.mod_add in Hstart by lia. f_equal; lia.
  - specialize (IH (S lo) rs Hrest). rewrite List.Forall_forall in *.
    intros r' Hr'. destruct (IH r' Hr') as (k & Hk & Hw).
    exists k. split; [lia|exact Hw].
Qed.

End MoreTimeSlices.

Lemma StronglySorted_strengthen {A} (R R' : A -> A -> Prop) (P : A -> Prop)
    (l : list A) :
  (forall a b, P a -> P b -> R a b -> R' a b) ->
  Forall P l -> StronglySorted R l -> StronglySorted R' l.
Proof.
  intros Himp HP Hs. induction Hs as [|a l Hs IH Hall]; [constructor|].
  inversion HP as [|? ? Pa Pl]; subst. constructor; [now apply IH|].
  rewrite List.Forall_forall in *. intros b Hb. apply Himp; auto.
Qed.

Lemma filter_length_le {A} (keep : A -> bool) (l : list A) :
  (length (List.filter keep l) <= length l)%nat.
Proof. induction l as [|a l IH]; cbn; [lia|]. destruct (keep a); cbn; lia. Qed.

Lemma filter_all {A} (keep : A -> bool) (l : list A) :
  Forall (fun a => keep a = true) l -> List.filter keep l = l.
Proof.
  induction 1 as [|a l Ha _ IH]; cbn; [reflexivity|]. now rewrite Ha, IH.
Qed.

(** The windows come in strictly decreasing order of their start. *)
Lemma time_slices_sorted_starts `{LT : LocalTime} (period : string)
    (period_info : _PeriodInfo) (timestamp : Timestamp) (horizon : Seconds)
    (timegroup : Timegroup) (windows : _TimeSlices) :
  _PREDICTION_PERIODS !! period = Some period_info ->
  _time_slices timestamp horizon period_info timegroup = Ok windows ->
  StronglySorted (fun w1 w2 : Timestamp * Timestamp => fst w2 < fst w1)
    windows.
Proof.
  intros Hl Hok.
  destruct (time_slices_steps _ _ timestamp horizon timegroup Hl)
    as (resolved & Hres & Heq).
  rewrite Heq in Hok. injection Hok as <-.
  destruct (steps_windows_sorted _ _ timestamp Hl _ 0%nat _ Hres)
    as (Hsorted & _).
  now apply filter_windows_sorted.
Qed.

(** X3. The windows [_time_slices] returns for a period of the table are in
    strictly decreasing order of their start, so no window comes twice; each is
    one slice long, starts at [timestamp] or before and ends after
    [timestamp - horizon]; and there are at most as many as steps, none for a
    horizon that is not positive. *)
Theorem time_slices_windows_ordered `{LT : LocalTime} (period : string)
    (period_info : _PeriodInfo) (timestamp : Timestamp) (horizon : Seconds)
    (timegroup : Timegroup) (windows : _TimeSlices) :
  _PREDICTION_PERIODS !! period = Some period_info ->
  _time_slices timestamp horizon period_info timegroup = Ok windows ->
  StronglySorted (fun w1 w2 : Timestamp * Timestamp => fst w2 < fst w1)
    windows /\
  Forall (fun w : Timestamp * Timestamp =>
            snd w = fst w + slice period_info /\
            fst w <= timestamp /\
            timestamp - horizon < snd w)
    windows /\
  Z.of_nat (length windows)
  <= (if 0 <? horizon then (horizon - 1) / slice period_info + 1 else 0).
Proof.
  intros Hl Hok.
  destruct (time_slices_steps _ _ timestamp horizon timegroup Hl)
    as (resolved & Hres & Heq).
  rewrite Heq in Hok. injection Hok as <-.
  destruct (groupby_supported _ _ timestamp Hl) as (Hpos & _).
  destruct (steps_windows_sorted _ _ timestamp Hl _ 0%nat _ Hres)
    as (Hsorted & Hall).
  set (steps := if 0 <? horizon
                then (horizon - 1) / slice period_info + 1 else 0) in *.
  assert (Hsteps : 0 <= steps /\ (steps * slice period_info < horizon + slice period_info
                                  \/ steps = 0)).
  { subst steps. destruct (Z.ltb_spec 0 horizon) as [Hh|Hh]; [|lia].
    pose proof (Z.div_pos (horizon - 1) _ ltac:(lia) Hpos).
    pose proof (Z.mul_div_le (horizon - 1) _ Hpos). split; [lia|left; nia]. }
  split; [|split].
  - now apply filter_windows_sorted.
  - apply List.Forall_forall. intros w Hw.
    apply in_map_iff in Hw as (r & <- & Hr). apply filter_In in Hr as (Hr & _).
    rewrite List.Forall_forall in Hall. destruct (Hall r Hr) as (He & Hle & Hlt).
    cbn [Nat.add] in Hlt. rewrite Z2Nat.id in Hlt by lia.
    revert He Hle Hlt.
    generalize (fst (resolved_window r)) (snd (resolved_window r)).
    intros st en He Hle Hlt. cbn [Z.of_nat] in Hle.
    destruct Hsteps as (_ & [Hs| ->]); split; try split; lia.
  - rewrite length_map.
    pose proof (filter_length_le
                  (fun r => String.eqb (resolved_timegroup r) timegroup)
                  resolved) as Hlen.
    apply Forall2_length in Hres. rewrite length_map, length_seq in Hres.
    lia.
Qed.

Lemma time_slices_windows_ordered_witness :
  exists windows,
    _time_slices 1600000000 (30 * 86400) wday_info "sunday" = Ok windows /\
    StronglySorted (fun w1 w2 : Timestamp * Timestamp => fst w2 < fst w1)
      windows /\
    Z.of_nat (length windows) <= 30.
Proof.
  destruct (_time_slices 1600000000 (30 * 86400) wday_info "sunday")
    as [windows|e] eqn:Hok; [|vm_compute in Hok; discriminate].
  exists windows. split; [reflexivity|].
  destruct (@time_slices_windows_ordered utc "wday" wday_info 1600000000
              (30 * 86400) "sunday" windows eq_refl Hok) as (Hs & _ & Hlen).
  split; [exact Hs|exact Hlen].
Defined.

(** X4. The periods by hour and by minute have a single timegroup, so every
    step is kept: for a positive horizon the windows number
    [(horizon - 1) // slice_length + 1], the horizon in slices rounded up. *)
Theorem time_slices_single_timegroup `{LT : LocalTime} (period : string)
    (period_info : _PeriodInfo) (timestamp : Timestamp) (horizon : Seconds)
    (timegroup : Timegroup) :
  _PREDICTION_PERIODS !! period = Some period_info ->
  (period = "hour" /\ timegroup = "everyday") \/
  (period = "minute" /\ timegroup = "everyhour") ->
  exists windows,
    _time_slices timestamp horizon period_info timegroup = Ok windows /\
    Z.of_nat (length windows)
    = (if 0 <? horizon then (horizon - 1) / slice period_info + 1 else 0).
Proof.
  intros Hl Hperiod.
  destruct (time_slices_steps _ _ timestamp horizon timegroup Hl)
    as (resolved & Hres & Heq).
  destruct (groupby_supported _ _ timestamp Hl) as (Hpos & _).
  eexists. split; [exact Heq|].
  assert (Hall : Forall (fun r => String.eqb (resolved_timegroup r) timegroup
                                  = true) resolved).
  { clear Heq. apply Forall2_Forall_r with (1 := Hres).
    apply List.Forall_forall. intros b _ r Hr. apply String.eqb_eq.
    destruct Hperiod as [[-> ->]|[-> ->]];
      apply prediction_periods_inv in Hl as [[[=] _]|[[[=] _]|[[Hp ->]|[Hp ->]]]];
      try discriminate Hp;
      unfold _get_prediction_timegroup in Hr; cbn in Hr; now injection Hr as <-. }
  rewrite (filter_all _ _ Hall), length_map.
  apply Forall2_length in Hres. rewrite length_map, length_seq in Hres.
  rewrite <- Hres, Z2Nat.id; [reflexivity|].
  destruct (Z.ltb_spec 0 horizon); [|lia].
  pose proof (Z.div_pos (horizon - 1) _ ltac:(lia) Hpos). lia.
Qed.

Lemma time_slices_single_timegroup_witness :
  exists windows,
    _time_slices 1600000000 (8 * 86400)
      (Build_PeriodInfo 86400 _group_by_day 1) "everyday" = Ok windows /\
    Z.of_nat (length windows)
    = (if 0 <? 8 * 86400 then (8 * 86400 - 1) / 86400 + 1 else 0).
Proof.
  apply (@time_slices_single_timegroup utc "hour"
           (Build_PeriodInfo 86400 _group_by_day 1) 1600000000 (8 * 86400)
           "everyday"); [reflexivity|left; split; reflexivity].
Defined.

(** X5. Where the UTC offset is the same at every instant, the windows of
    [_time_slices] lie on one grid: each starts a whole number of slices before
    the window of [timestamp], and an older window ends where a newer one
    starts or before, so the windows do not overlap. *)
Theorem time_slices_constant_offset_grid `{LT : LocalTime} (period : string)
    (period_info : _PeriodInfo) (timestamp : Timestamp) (horizon : Seconds)
    (timegroup : Timegroup) (windows : _TimeSlices) (c : Z) :
  _PREDICTION_PERIODS !! period = Some period_info ->
  (forall t, timezone_at t = c) ->
  _time_slices timestamp horizon period_info timegroup = Ok windows ->
  let newest := timestamp - (timestamp - c) mod slice period_info in
  Forall (fun w : Timestamp * Timestamp =>
            exists k, 0 <= k /\
              w = (newest - k * slice period_info,
                   newest - k * slice period_info + slice period_info))
    windows /\
  StronglySorted (fun w1 w2 : Timestamp * Timestamp => snd w2 <= fst w1)
    windows.
Proof.
  intros Hl Htz Hok. cbn zeta.
  pose proof (time_slices_sorted_starts _ _ _ _ _ _ Hl Hok) as Hsorted.
  destruct (time_slices_steps _ _ timestamp horizon timegroup Hl)
    as (resolved & Hres & Heq).
  rewrite Heq in Hok. injection Hok as <-.
  destruct (groupby_supported _ _ timestamp Hl) as (Hpos & _).
  pose proof (steps_windows_grid _ _ timestamp c Hl Htz _ 0%nat _ Hres) as Hgrid.
  assert (Hwin : Forall (fun w : Timestamp * Timestamp =>
            exists k, 0 <= k /\
              w = (timestamp - (timestamp - c) mod slice period_info
                   - k * slice period_info,
                   timestamp - (timestamp - c) mod slice period_info
                   - k * slice period_info + slice period_info))
            (map resolved_window
               (List.filter
                  (fun r => String.eqb (resolved_timegroup r) timegroup)
                  resolved))).
  { apply List.Forall_forall. intros w Hw.
    apply in_map_iff in Hw as (r & <- & Hr). apply filter_In in Hr as (Hr & _).
    rewrite List.Forall_forall in Hgrid. destruct (Hgrid r Hr) as (k & Hk & Hw).
    exists k. split; [lia|exact Hw]. }
  split; [exact Hwin|].
  eapply StronglySorted_strengthen; [|exact Hwin|exact Hsorted].
  intros w1 w2 (k1 & _ & ->) (k2 & _ & ->). cbn [fst snd].
  generalize (timestamp - (timestamp - c) mod slice period_info). intros s0 Hlt.
  assert (k1 < k2) by nia. nia.
Qed.

Lemma time_slices_constant_offset_grid_witness :
  exists windows,
    _time_slices 1600000000 (30 * 86400) wday_info "sunday" = Ok windows /\
    StronglySorted (fun w1 w2 : Timestamp * Timestamp => snd w2 <= fst w1)
      windows.
Proof.
  destruct (_time_slices 1600000000 (30 * 86400) wday_info "sunday")
    as [windows|e] eqn:Hok; [|vm_compute in Hok; discriminate].
  exists windows. split; [reflexivity|].
  exact (proj2 (@time_slices_constant_offset_grid utc "wday" wday_info
                  1600000000 (30 * 86400) "sunday" windows 0 eq_refl
                  (fun _ => eq_refl) Hok)).
Defined.

(** ** Errors and edge cases of the summary *)

Lemma data_stats_raises `{LM : Libm} (slices : list TimeSeriesValues) (e : exn) :
  _data_stats slices = Raise e -> e = OverflowError.
Proof.
  intros Hraise. unfold _data_stats in Hraise.
  destruct (data_stats_loop_Raise _ _ _ Hraise) as (c & _ & Hc).
  destruct (defined_values c) as [|p rest] eqn:Hdef.
  - now rewrite data_stats_column_None in Hc.
  - destruct (data_stats_column_Some c) as (lo & hi & _ & _ & Heq);
      [rewrite Hdef; discriminate|].
    rewrite Heq in Hc.
    destruct (_std_dev _ _) as [sd|e'] eqn:Hsd; [discriminate|].
    injection Hc as <-. eapply std_dev_raises, Hsd. rewrite Hdef. discriminate.
Qed.

Lemma retrieve_grouped_data_cons `{CO : Collaborators}
    (rrd_column : RRDColumnFunction) (first : Timestamp * Timestamp)
    (rest : _TimeSlices) :
  let native := twindow (rrd_column (fst first) (snd first)) in
  _retrieve_grouped_data_from_rrd rrd_column (first :: rest)
  = if snd native =? 0 then Raise NoHistoricDataError
    else Ok (native,
             map (fun sl : TimeSeries * Seconds =>
                    let '(ts, shift) := sl in bfill_upsample ts native shift)
               (map (fun w : Timestamp * Timestamp =>
                       let '(start, end_) := w in
                       (rrd_column start end_, fst first - start))
                  (first :: rest))).
Proof.
  destruct first as [start end_]. cbn zeta.
  unfold _retrieve_grouped_data_from_rrd. rewrite py_index_head.
  cbn [mbind result_bind map]. rewrite py_index_head. reflexivity.
Qed.

(** X6. [_calculate_data_for_prediction] fails in three ways only: with
    [IndexError] exactly when there is no window, with the error of missing
    historic data exactly when the series of the first window has a step of
    zero, and with [OverflowError] from the statistics. *)
Theorem calculate_data_for_prediction_errors `{CO : Collaborators}
    `{LM : Libm}
    (time_windows : _TimeSlices) (rrd_datacolumn : RRDColumnFunction) :
  let result := _calculate_data_for_prediction time_windows rrd_datacolumn in
  (result = Raise IndexError <-> time_windows = []) /\
  (result = Raise NoHistoricDataError <->
   exists first rest,
     time_windows = first :: rest /\
     snd (twindow (rrd_datacolumn (fst first) (snd first))) = 0) /\
  (forall e, result = Raise e ->
             e = IndexError \/ e = NoHistoricDataError \/ e = OverflowError).
Proof.
  cbn zeta. unfold _calculate_data_for_prediction.
  destruct time_windows as [|first rest].
  - unfold _retrieve_grouped_data_from_rrd. rewrite py_index_nil.
    cbn [mbind result_bind]. split; [tauto|]. split.
    + split; [discriminate|]. now intros (f & r & [=] & _).
    + intros e [= <-]. now left.
  - rewrite retrieve_grouped_data_cons. cbn zeta.
    destruct (Z.eqb_spec (snd (twindow (rrd_datacolumn (fst first) (snd first)))) 0)
      as [Hz|Hnz]; cbn [mbind result_bind].
    + split; [split; discriminate|]. split.
      * split; [intros _; now exists first, rest|reflexivity].
      * intros e [= <-]. right. now left.
    + destruct (_data_stats _) as [descriptors|e'] eqn:Hstats;
        cbn [mbind result_bind].
      * split; [split; discriminate|]. split; [|discriminate].
        split; [discriminate|]. intros (f & r & [= <- <-] & Hz). contradiction.
      * pose proof (data_stats_raises _ _ Hstats) as ->.
        split; [split; discriminate|]. split.
        -- split; [discriminate|].
           intros (f & r & [= <- <-] & Hz). contradiction.
        -- intros e [= <-]. right. now right.
Qed.

Lemma calculate_data_for_prediction_errors_witness :
  _calculate_data_for_prediction [] constant_rrd = Raise IndexError.
Proof.
  apply (proj1 (@calculate_data_for_prediction_errors memory_store
                  rounded_libm []
                  constant_rrd)).
  reflexivity.
Defined.

(** ** Columns of the statistics *)

Lemma data_stats_loop_ext `{LM : Libm} (columns columns' : list (list (option float))) :
  Forall2 (fun c c' => _data_stats_column c = _data_stats_column c')
    columns columns' ->
  forall descriptors,
    _data_stats_loop columns descriptors = _data_stats_loop columns' descriptors.
Proof.
  induction 1 as [|c c' cs cs' Hc _ IH]; intros descriptors; [reflexivity|].
  cbn [_data_stats_loop]. rewrite Hc.
  destruct (_data_stats_column c'); [|reflexivity]. cbn. apply IH.
Qed.

Lemma fold_min_app (rest : list TimeSeriesValues) (r : TimeSeriesValues) (m : nat) :
  fold_left (fun m t => Nat.min m (length t)) (rest ++ [r]) m
  = Nat.min (fold_left (fun m t => Nat.min m (length t)) rest m) (length r).
Proof. now rewrite fold_left_app. Qed.

Lemma nth_all_None (r : TimeSeriesValues) (i : nat) :
  Forall (fun v => v = None) r -> nth i r None = None.
Proof.
  intros Hall. destruct (nth_in_or_default i r None) as [Hin|Hd]; [|exact Hd].
  rewrite List.Forall_forall in Hall. now apply Hall.
Qed.

Lemma data_stats_column_None_last `{LM : Libm}
    (time_column : list (option float)) :
  _data_stats_column (time_column ++ [None]) = _data_stats_column time_column.
Proof.
  unfold _data_stats_column, defined_values.
  rewrite omap_app. cbn. now rewrite app_nil_r.
Qed.

(** X7. Values that are [None] do not count: a further series that holds only
    [None], and is as long as the shortest of the others, leaves every point
    statistic as it was. *)
Theorem data_stats_ignores_empty_series `{LM : Libm}
    (slices : list TimeSeriesValues)
    (series : TimeSeriesValues) :
  slices <> [] ->
  Forall (fun v => v = None) series ->
  (length (zip_star None slices) <= length series)%nat ->
  _data_stats (slices ++ [series]) = _data_stats slices.
Proof.
  intros Hne Hnone Hlen. unfold _data_stats.
  destruct slices as [|s rest]; [contradiction|].
  apply data_stats_loop_ext.
  cbn [zip_star app] in *. rewrite length_map, length_seq in Hlen.
  rewrite fold_min_app, Nat.min_l by exact Hlen.
  set (n := fold_left (fun m t => Nat.min m (length t)) rest (length s)).
  clearbody n. clear Hlen.
  generalize 0%nat as lo.
  induction n as [|n IH]; intros lo; cbn [seq map]; constructor; [|apply IH].
  rewrite map_app. cbn [map]. rewrite (nth_all_None _ _ Hnone).
  exact (data_stats_column_None_last (_ :: _)).
Qed.

Lemma data_stats_ignores_empty_series_witness :
  _data_stats ([[Some 2%float; None]; [Some 4%float; Some 1%float]]
               ++ [[None; None; None]])
  = _data_stats [[Some 2%float; None]; [Some 4%float; Some 1%float]].
Proof.
  apply data_stats_ignores_empty_series.
  - discriminate.
  - repeat constructor.
  - cbn. lia.
Defined.

(** X8. A column with a single value [x] that is not [None] has [x] as its
    minimum and its maximum, and the magnitude of its average as the standard
    deviation. *)
Theorem data_stats_single_value `{LM : Libm}
    (slices : list TimeSeriesValues)
    (descriptors : _DataStats) (i : nat) (stat : _DataStat) (x : float) :
  _data_stats slices = Ok descriptors ->
  nth_error descriptors i = Some stat ->
  defined_values (map (fun series => nth i series None) slices) = [x] ->
  exists average,
    average = (py_sum [x] / py_float 1)%float /\
    stat = [Some average; Some x; Some x; Some (PrimFloat.abs average)].
Proof.
  intros Hok Hi Hdef.
  destruct (data_stats_entry _ _ _ _ Hok Hi) as (_ & Hsome).
  cbn zeta in Hsome. rewrite Hdef in Hsome.
  destruct (Hsome ltac:(discriminate)) as (lo & hi & sd & -> & Hlo & Hhi & Hsd).
  injection Hlo as <-. injection Hhi as <-.
  rewrite std_dev_single in Hsd. injection Hsd as <-.
  eexists. split; reflexivity.
Qed.

Lemma data_stats_single_value_witness :
  exists average,
    average = (py_sum [5%float] / py_float 1)%float /\
    [Some 5%float; Some 5%float; Some 5%float; Some 5%float]
    = [Some average; Some 5%float; Some 5%float; Some (PrimFloat.abs average)].
Proof.
  apply (data_stats_single_value [[Some 5%float]; [None]]
           [[Some 5%float; Some 5%float; Some 5%float; Some 5%float]] 0
           _ 5%float); reflexivity.
Defined.

(** X9. Without a series, or with a series that has no value at all,
    [_data_stats] returns no point. *)
Theorem data_stats_no_point `{LM : Libm}
    (slices : list TimeSeriesValues) :
  slices = [] \/ In [] slices -> _data_stats slices = Ok [].
Proof.
  intros Hempty. unfold _data_stats.
  assert (Hlen : length (zip_star None slices) = 0%nat).
  { destruct (length (zip_star None slices)) as [|n] eqn:Hn; [reflexivity|].
    assert (Hlt : (0 < length (zip_star None slices))%nat) by lia.
    apply zip_star_length in Hlt as (Hne & Hall).
    destruct Hempty as [->|Hin]; [contradiction|].
    rewrite List.Forall_forall in Hall. specialize (Hall [] Hin). cbn in Hall.
    lia. }
  destruct (zip_star None slices); [reflexivity|discriminate].
Qed.

Lemma data_stats_no_point_witness :
  _data_stats [[Some 2%float; None]; []; [Some 4%float]] = Ok [].
Proof.
  apply data_stats_no_point. right. right. now left.
Defined.

(** ** What the cache reads and writes *)

Lemma pair_of_fst {A B} (p : A * B) (a : A) : fst p = a -> p = (a, snd p).
Proof. destruct p. cbn. now intros ->. Qed.

Section MoreCache.
Context `{LT : LocalTime} `{CO : Collaborators} `{LM : Libm}.

(** The world after the check: the store and the clock as before, the
    retrieval of the metadata recorded. *)
Lemma is_prediction_up_to_date_world pred_file timegroup params w :
  snd (_is_prediction_up_to_date pred_file timegroup params w)
  = observed (EvRetrieve (pred_file ++ ".info") timegroup) w.
Proof.
  unfold _is_prediction_up_to_date, Qltb. unfold_io.
  destruct (retrieve_info_for_prediction _ _ _) as [last_info|]; [|reflexivity].
  destruct (period_info_of params) as [period_info|e]; [|reflexivity].
  cbn [clock]. destruct (negb (Qle_bool _ _)); [reflexivity|].
  destruct (negb (py_eq _ _)); reflexivity.
Qed.

Lemma cached_prediction_Some pred_file timegroup params w data w2 :
  cached_prediction pred_file timegroup params w = (Ok (Some data), w2) ->
  fst (_is_prediction_up_to_date pred_file timegroup params w) = Ok true /\
  retrieve_data_for_prediction pred_file timegroup (fs w) = Some data /\
  w2 = observed (EvRetrieve pred_file timegroup)
         (observed (EvRetrieve (pred_file ++ ".info") timegroup) w).
Proof.
  unfold cached_prediction, mbind, io_bind.
  pose proof (is_prediction_up_to_date_world pred_file timegroup params w) as Hw.
  destruct (_is_prediction_up_to_date pred_file timegroup params w)
    as [[[|]|e] w1]; cbn [fst snd] in *; subst w1; try discriminate.
  unfold io_retrieve_data, observe, observed. cbn [fs clock trace].
  intros [= Hdata]. auto.
Qed.

(** The part of [get_levels] after the summary is at hand changes nothing. *)
Lemma get_levels_with_summary hostname service_description dsname params cf
    levels_factor w period_info timegroup rel_time data_for_pred w2 :
  period_info_of params = Ok period_info ->
  groupby period_info (py_int_Q (clock w)) = Ok (timegroup, rel_time) ->
  cached_prediction
    (os_path_join (predictions_dir hostname service_description dsname)
       timegroup)
    timegroup params
    (prepared (predictions_dir hostname service_description dsname)
       (os_path_join (predictions_dir hostname service_description dsname)
          timegroup) w)
  = (Ok (Some data_for_pred), w2) ->
  snd (get_levels hostname service_description dsname params cf levels_factor w)
  = w2 /\
  (step data_for_pred = 0 ->
   fst (get_levels hostname service_description dsname params cf
          levels_factor w)
   = Raise ZeroDivisionError).
Proof.
  intros Hperiod Hgroup Hcached.
  unfold get_levels. unfold_io.
  rewrite Hperiod, Hgroup. cbn [fs clock trace].
  unfold prepared in Hcached. rewrite Hcached. split.
  - destruct (py_int_truediv _ _) as [index|]; [|reflexivity].
    destruct (py_index _ _) as [point|]; [|reflexivity].
    destruct (reference_getitem _ _ "average"); [|reflexivity].
    destruct (reference_getitem _ _ "stdev"); reflexivity.
  - intros Hstep. unfold py_int_truediv. rewrite Hstep. reflexivity.
Qed.

(** A recomputation that fails has cleaned the files by force and written
    nothing. *)
Lemma computed_prediction_Raise hostname service_description dsname params cf
    now period_info timegroup pred_file w2 e w3 :
  computed_prediction hostname service_description dsname params cf now
    period_info timegroup pred_file w2 = (Raise e, w3) ->
  w3 = {| fs := clean_prediction_files pred_file true (fs w2);
          clock := clock w2;
          trace := trace w2 ++ [EvClean pred_file true] |}.
Proof.
  unfold computed_prediction, _save_predictions. unfold_io.
  destruct (py_getitem params "horizon") as [horizon|]; [|now intros [= _ <-]].
  destruct (horizon_seconds horizon) as [seconds|]; [|now intros [= _ <-]].
  destruct (_time_slices _ _ _ _) as [time_windows|]; [|now intros [= _ <-]].
  destruct (_calculate_data_for_prediction _ _) as [data|]; [|now intros [= _ <-]].
  destruct (py_index time_windows 0) as [range|]; [|now intros [= _ <-]].
  discriminate.
Qed.

End MoreCache.

(** X11. The period is looked up only once metadata was found: with metadata
    at hand a period that is none of the four makes the check raise the error
    of the lookup, while without metadata the same parameters give false. *)
Theorem is_prediction_up_to_date_unknown_period `{LT : LocalTime}
    `{CO : Collaborators} (pred_file : string) (timegroup : Timegroup)
    (params : _PredictionParameters) (w : World) :
  assoc "period" params <> Some (PStr "wday") ->
  assoc "period" params <> Some (PStr "day") ->
  assoc "period" params <> Some (PStr "hour") ->
  assoc "period" params <> Some (PStr "minute") ->
  let result := fst (_is_prediction_up_to_date pred_file timegroup params w) in
  let retrieved :=
    retrieve_info_for_prediction (pred_file ++ ".info") timegroup (fs w) in
  (retrieved = None -> result = Ok false) /\
  (retrieved <> None -> exists e, result = Raise e /\ LookupFailure e).
Proof.
  intros Hw Hd Hh Hm. cbn zeta. split.
  - intros Habs. now rewrite is_prediction_up_to_date_absent.
  - intros Hsome.
    destruct (period_info_of_unknown params Hw Hd Hh Hm)
      as (e & Hperiod & He & _).
    exists e. split; [|exact He].
    unfold _is_prediction_up_to_date. unfold_io.
    destruct (retrieve_info_for_prediction _ _ _); [|contradiction].
    now rewrite Hperiod.
Qed.

Lemma is_prediction_up_to_date_unknown_period_witness :
  exists e,
    fst (_is_prediction_up_to_date "/p/sunday" "sunday"
           [("period", PStr "week")]
           (world_with_info 1600000000 None (inject_Z 1600000000)))
    = Raise e /\ LookupFailure e.
Proof.
  apply (@is_prediction_up_to_date_unknown_period utc memory_store);
    discriminate.
Defined.

(** X12. Metadata stored without parameters never counts as up to date: the
    current parameters are a dict, which differs from [None]. *)
Theorem is_prediction_up_to_date_without_params `{LT : LocalTime}
    `{CO : Collaborators} (pred_file : string) (timegroup : Timegroup)
    (params : _PredictionParameters) (w : World) (last_info : PredictionInfo) :
  retrieve_info_for_prediction (pred_file ++ ".info") timegroup (fs w)
  = Some last_info ->
  info_params last_info = None ->
  fst (_is_prediction_up_to_date pred_file timegroup params w) <> Ok true.
Proof.
  intros Hinfo Hparams.
  destruct (period_info_of params) as [period_info|e] eqn:Hperiod.
  - rewrite (is_prediction_up_to_date_present _ _ _ _ _ _ Hinfo Hperiod).
    rewrite Hparams. cbn. rewrite andb_false_r. discriminate.
  - unfold _is_prediction_up_to_date. unfold_io.
    rewrite Hinfo, Hperiod. discriminate.
Qed.

Lemma is_prediction_up_to_date_without_params_witness :
  fst (_is_prediction_up_to_date "/p/sunday" "sunday" sample_params
         (world_with_info 1600000000 None (inject_Z 1600000000)))
  <> Ok true.
Proof.
  eapply (@is_prediction_up_to_date_without_params utc memory_store);
    reflexivity.
Defined.

(** X13. When the cache is up to date and holds the summary, [get_levels]
    writes nothing and cleans nothing by force: whether it then returns or
    raises, the store is the one left by making the directory and the plain
    clean, and the accesses are those two and the retrieval of the metadata and
    of the summary. A cached summary with a step of zero makes it raise
    [ZeroDivisionError]. *)
Theorem get_levels_cache_hit `{LT : LocalTime} `{CO : Collaborators}
    `{LM : Libm}
    (hostname : HostName) (service_description : ServiceName)
    (dsname : MetricName) (params : _PredictionParameters)
    (cf : ConsolidationFunctionName) (levels_factor : float) (w : World)
    (period_info : _PeriodInfo) (timegroup : Timegroup) (rel_time : Seconds)
    (data_for_pred : _PredictionData) (w2 : World) :
  let now := py_int_Q (clock w) in
  let pred_dir := predictions_dir hostname service_description dsname in
  let pred_file := os_path_join pred_dir timegroup in
  period_info_of params = Ok period_info ->
  groupby period_info now = Ok (timegroup, rel_time) ->
  cached_prediction pred_file timegroup params (prepared pred_dir pred_file w)
  = (Ok (Some data_for_pred), w2) ->
  let outcome :=
    get_levels hostname service_description dsname params cf levels_factor w in
  fs (snd outcome)
  = clean_prediction_files pred_file false (makedirs pred_dir (fs w)) /\
  trace (snd outcome)
  = trace w ++ [EvMakedirs pred_dir; EvClean pred_file false;
                EvRetrieve (pred_file ++ ".info") timegroup;
                EvRetrieve pred_file timegroup] /\
  (step data_for_pred = 0 -> fst outcome = Raise ZeroDivisionError).
Proof.
  cbn zeta. intros Hperiod Hgroup Hcached.
  destruct (get_levels_with_summary _ _ _ _ cf levels_factor _ _ _ _ _ _
              Hperiod Hgroup Hcached) as (Hworld & Hzero).
  destruct (cached_prediction_Some _ _ _ _ _ _ Hcached) as (_ & _ & Hw2).
  rewrite Hworld, Hw2. cbn [observed prepared fs trace].
  split; [reflexivity|]. split; [|exact Hzero].
  now rewrite <- !app_assoc.
Qed.

(** X14. When the summary has to be computed anew and that fails, [get_levels]
    raises after the forced clean and before any write: the cached files are
    gone and nothing replaces them. Parameters without a horizon fail so, with
    [KeyError]. *)
Theorem get_levels_failed_recomputation `{LT : LocalTime}
    `{CO : Collaborators} `{LM : Libm} (hostname : HostName)
    (service_description : ServiceName) (dsname : MetricName)
    (params : _PredictionParameters) (cf : ConsolidationFunctionName)
    (levels_factor : float) (w : World) (period_info : _PeriodInfo)
    (timegroup : Timegroup) (rel_time : Seconds) (w2 : World) :
  let now := py_int_Q (clock w) in
  let pred_dir := predictions_dir hostname service_description dsname in
  let pred_file := os_path_join pred_dir timegroup in
  let cleaned :=
    {| fs := clean_prediction_files pred_file true (fs w2);
       clock := clock w2;
       trace := trace w2 ++ [EvClean pred_file true] |} in
  period_info_of params = Ok period_info ->
  groupby period_info now = Ok (timegroup, rel_time) ->
  cached_prediction pred_file timegroup params (prepared pred_dir pred_file w)
  = (Ok None, w2) ->
  (forall e w3,
     computed_prediction hostname service_description dsname params cf now
       period_info timegroup pred_file w2 = (Raise e, w3) ->
     get_levels hostname service_description dsname params cf levels_factor w
     = (Raise e, cleaned)) /\
  (assoc "horizon" params = None ->
   get_levels hostname service_description dsname params cf levels_factor w
   = (Raise (KeyError (PStr "horizon")), cleaned)).
Proof.
  cbn zeta. intros Hperiod Hgroup Hcached. split.
  - intros e w3 Hcomputed.
    rewrite (get_levels_cache_miss _ _ _ _ cf levels_factor _ _ _ _ _
               Hperiod Hgroup Hcached e w3 Hcomputed).
    now rewrite (computed_prediction_Raise _ _ _ _ _ _ _ _ _ _ _ _ Hcomputed).
  - intros Hhorizon.
    apply (get_levels_cache_miss _ _ _ _ cf levels_factor _ _ _ _ _
             Hperiod Hgroup Hcached).
    unfold computed_prediction, py_getitem. unfold_io.
    rewrite Hhorizon. reflexivity.
Qed.

Lemma get_levels_failed_recomputation_witness :
  exists cleaned,
    get_levels "host" "CPU load" "load1" [("period", PStr "wday")] "MAX"
      1%float (empty_world (inject_Z 1600000000))
    = (Raise (KeyError (PStr "horizon")), cleaned).
Proof.
  eexists.
  refine (proj2 (@get_levels_failed_recomputation utc memory_store rounded_libm
            "host" "CPU load" "load1" [("period", PStr "wday")] "MAX" 1%float
            (empty_world (inject_Z 1600000000)) wday_info "sunday" 44800
            (snd (cached_prediction "/prediction/host/CPU load/load1/sunday"
                    "sunday" [("period", PStr "wday")]
                    (prepared "/prediction/host/CPU load/load1"
                       "/prediction/host/CPU load/load1/sunday"
                       (empty_world (inject_Z 1600000000)))))
            eq_refl eq_refl _) eq_refl).
  apply pair_of_fst. vm_compute. reflexivity.
Defined.

Lemma get_levels_cache_hit_witness :
  let cached :=
    {| fs := fs (snd (get_levels "host" "CPU load" "load1" sample_params "MAX"
                        1%float (empty_world (inject_Z 1600000000))));
       clock := inject_Z 1600000000;
       trace := [] |} in
  trace (snd (get_levels "host" "CPU load" "load1" sample_params "MAX" 1%float
                cached))
  = [EvMakedirs "/prediction/host/CPU load/load1";
     EvClean "/prediction/host/CPU load/load1/sunday" false;
     EvRetrieve "/prediction/host/CPU load/load1/sunday.info" "sunday";
     EvRetrieve "/prediction/host/CPU load/load1/sunday" "sunday"].
Proof.
  intros cached.
  pose (hit := cached_prediction "/prediction/host/CPU load/load1/sunday"
                 "sunday" sample_params
                 (prepared "/prediction/host/CPU load/load1"
                    "/prediction/host/CPU load/load1/sunday" cached)).
  refine (proj1 (proj2 (@get_levels_cache_hit utc memory_store rounded_libm
            "host" "CPU load" "load1" sample_params "MAX" 1%float cached
            wday_info "sunday" 44800
            (match fst hit with
             | Ok (Some data) => data
             | _ => {| columns := []; points := []; num_points := 0;
                       data_twindow := []; step := 0 |}
             end)
            (snd hit) eq_refl eq_refl _))).
  apply pair_of_fst. vm_compute. reflexivity.
Defined.

(** X15. When the summary is computed anew, [get_levels] saves the metadata
    and then the summary over the files cleaned by force, and nothing after
    that touches the store. The metadata records the time of the call, the
    first window, the consolidation function, the metric, the slice length and
    the parameters as given. *)
Theorem get_levels_recomputation_saved `{LT : LocalTime} `{CO : Collaborators}
    `{LM : Libm}
    (hostname : HostName) (service_description : ServiceName)
    (dsname : MetricName) (params : _PredictionParameters)
    (cf : ConsolidationFunctionName) (levels_factor : float) (w : World)
    (period_info : _PeriodInfo) (timegroup : Timegroup) (rel_time : Seconds)
    (w2 : World) (horizon : pyval) (seconds : Seconds)
    (time_windows : _TimeSlices) (data_for_pred : _PredictionData) :
  let now := py_int_Q (clock w) in
  let pred_dir := predictions_dir hostname service_description dsname in
  let pred_file := os_path_join pred_dir timegroup in
  period_info_of params = Ok period_info ->
  groupby period_info now = Ok (timegroup, rel_time) ->
  cached_prediction pred_file timegroup params (prepared pred_dir pred_file w)
  = (Ok None, w2) ->
  py_getitem params "horizon" = Ok horizon ->
  horizon_seconds horizon = Ok seconds ->
  _time_slices now seconds period_info timegroup = Ok time_windows ->
  _calculate_data_for_prediction time_windows
    (rrd_datacolum hostname service_description dsname cf)
  = Ok data_for_pred ->
  exists first older,
    time_windows = first :: older /\
    snd (get_levels hostname service_description dsname params cf
           levels_factor w)
    = {| fs :=
           json_dump_data pred_file data_for_pred
             (json_dump_info (pred_file ++ ".info")
                {| info_time := now;
                   info_range := first;
                   info_cf := cf;
                   info_dsname := dsname;
                   info_slice := slice period_info;
                   info_params := Some (PDict params) |}
                (clean_prediction_files pred_file true (fs w2)));
         clock := clock w2;
         trace := trace w2 ++ [EvClean pred_file true;
                               EvWrite (pred_file ++ ".info");
                               EvWrite pred_file] |}.
Proof.
  cbn zeta. intros Hperiod Hgroup Hcached Hhorizon Hseconds Hslices Hcalc.
  destruct time_windows as [|first older].
  { unfold _calculate_data_for_prediction, _retrieve_grouped_data_from_rrd
      in Hcalc.
    rewrite py_index_nil in Hcalc. discriminate. }
  exists first, older. split; [reflexivity|].
  unfold get_levels. unfold_io.
  rewrite Hperiod, Hgroup. cbn [fs clock trace].
  unfold prepared in Hcached. rewrite Hcached.
  unfold computed_prediction, _save_predictions. unfold_io.
  rewrite Hhorizon, Hseconds, Hslices, Hcalc, py_index_head.
  cbn [fs clock trace].
  rewrite <- !app_assoc. cbn [app].
  destruct (py_int_truediv _ _) as [index|]; [|reflexivity].
  destruct (py_index _ _) as [point|]; [|reflexivity].
  destruct (reference_getitem _ _ "average"); [|reflexivity].
  destruct (reference_getitem _ _ "stdev"); reflexivity.
Qed.

Lemma get_levels_recomputation_saved_witness :
  memory_retrieve_info "/prediction/host/CPU load/load1/sunday.info" "sunday"
    (fs (snd (get_levels "host" "CPU load" "load1" sample_params "MAX" 1%float
                (empty_world (inject_Z 1600000000)))))
  = Some {| info_time := 1600000000;
            info_range := (1599955200, 1600041600);
            info_cf := "MAX";
            info_dsname := "load1";
            info_slice := 86400;
            info_params := Some (jsonize (PDict sample_params)) |}.
Proof.
  destruct (@get_levels_recomputation_saved utc memory_store rounded_libm
              "host" "CPU load" "load1" sample_params "MAX" 1%float
              (empty_world (inject_Z 1600000000)) wday_info "sunday" 44800
              (observed (EvRetrieve "/prediction/host/CPU load/load1/sunday.info"
                           "sunday")
                 (prepared "/prediction/host/CPU load/load1"
                    "/prediction/host/CPU load/load1/sunday"
                    (empty_world (inject_Z 1600000000))))
              (PInt 90) (90 * 86400)
              (match _time_slices 1600000000 (90 * 86400) wday_info "sunday"
               with Ok tws => tws | Raise _ => [] end)
              (match _calculate_data_for_prediction
                       (match _time_slices 1600000000 (90 * 86400) wday_info
                                "sunday"
                        with Ok tws => tws | Raise _ => [] end) constant_rrd
               with Ok d => d
               | Raise _ => {| columns := []; points := []; num_points := 0;
                               data_twindow := []; step := 0 |} end)
              eq_refl eq_refl eq_refl eq_refl eq_refl
              ltac:(vm_compute; reflexivity) ltac:(vm_compute; reflexivity))
    as (first & older & Hwindows & Hworld).
  rewrite Hworld. vm_compute in Hwindows. injection Hwindows as <- _.
  vm_compute. reflexivity.
Defined.

(** X16. An integer horizon that is not positive leaves no step to take: when
    the summary has to be computed anew, [get_levels] then fails with
    [IndexError], the cached files cleaned by force and nothing written. *)
Theorem get_levels_nonpositive_horizon `{LT : LocalTime} `{CO : Collaborators}
    `{LM : Libm}
    (hostname : HostName) (service_description : ServiceName)
    (dsname : MetricName) (params : _PredictionParameters)
    (cf : ConsolidationFunctionName) (levels_factor : float) (w : World)
    (period : string) (period_info : _PeriodInfo) (timegroup : Timegroup)
    (rel_time : Seconds) (w2 : World) (days : Z) :
  let now := py_int_Q (clock w) in
  let pred_dir := predictions_dir hostname service_description dsname in
  let pred_file := os_path_join pred_dir timegroup in
  assoc "period" params = Some (PStr period) ->
  _PREDICTION_PERIODS !! period = Some period_info ->
  groupby period_info now = Ok (timegroup, rel_time) ->
  cached_prediction pred_file timegroup params (prepared pred_dir pred_file w)
  = (Ok None, w2) ->
  assoc "horizon" params = Some (PInt days) ->
  days <= 0 ->
  get_levels hostname service_description dsname params cf levels_factor w
  = (Raise IndexError,
     {| fs := clean_prediction_files pred_file true (fs w2);
        clock := clock w2;
        trace := trace w2 ++ [EvClean pred_file true] |}).
Proof.
  cbn zeta. intros Hname Hl Hgroup Hcached Hhorizon Hdays.
  assert (Hperiod : period_info_of params = Ok period_info).
  { unfold period_info_of, py_getitem. rewrite Hname. cbn.
    unfold _PREDICTION_PERIODS_getitem. cbn. now rewrite Hl. }
  destruct (groupby_supported _ _ 0 Hl) as (Hpos & _).
  apply (get_levels_cache_miss _ _ _ _ cf levels_factor _ _ _ _ _
           Hperiod Hgroup Hcached).
  unfold computed_prediction, py_getitem. unfold_io.
  rewrite Hhorizon. cbn [horizon_seconds].
  rewrite time_slices_no_horizon by (exact Hpos || lia).
  unfold _calculate_data_for_prediction, _retrieve_grouped_data_from_rrd.
  rewrite py_index_nil. reflexivity.
Qed.

Lemma get_levels_nonpositive_horizon_witness :
  exists cleaned,
    get_levels "host" "CPU load" "load1"
      [("period", PStr "day"); ("horizon", PInt (-3))] "MAX" 1%float
      (empty_world (inject_Z 1600000000))
    = (Raise IndexError, cleaned).
Proof.
  eexists.
  refine (@get_levels_nonpositive_horizon utc memory_store rounded_libm
            "host" "CPU load" "load1"
            [("period", PStr "day"); ("horizon", PInt (-3))] "MAX" 1%float
            (empty_world (inject_Z 1600000000)) "day"
            (Build_PeriodInfo 86400 _group_by_day_of_month 28) "13" 44800
            (snd (cached_prediction "/prediction/host/CPU load/load1/13" "13"
                    [("period", PStr "day"); ("horizon", PInt (-3))]
                    (prepared "/prediction/host/CPU load/load1"
                       "/prediction/host/CPU load/load1/13"
                       (empty_world (inject_Z 1600000000)))))
            (-3) eq_refl eq_refl eq_refl _ eq_refl _); [|lia].
  apply pair_of_fst. vm_compute. reflexivity.
Defined.

(** X17. The lookup of the period succeeds exactly for the four names of the
    table, and with it the time a cached summary stays valid is fixed: a week
    by weekday, four weeks by day of the month, a day by hour and by minute. *)
Theorem period_info_of_validity `{LT : LocalTime}
    (params : _PredictionParameters) (period_info : _PeriodInfo) :
  period_info_of params = Ok period_info <->
  exists period,
    assoc "period" params = Some (PStr period) /\
    _PREDICTION_PERIODS !! period = Some period_info /\
    ((period = "wday" /\ valid period_info * slice period_info = 7 * 86400) \/
     (period = "day" /\ valid period_info * slice period_info = 28 * 86400) \/
     (period = "hour" /\ valid period_info * slice period_info = 86400) \/
     (period = "minute" /\ valid period_info * slice period_info = 86400)).
Proof.
  unfold period_info_of, py_getitem. split.
  - destruct (assoc "period" params) as [key|]; [|discriminate]. cbn.
    unfold _PREDICTION_PERIODS_getitem.
    destruct (py_hashable key); cbn; [|discriminate].
    destruct key as [| | | |period| | |]; try discriminate.
    destruct (_PREDICTION_PERIODS !! period) as [found|] eqn:Hl; [|discriminate].
    intros [= ->]. exists period. split; [reflexivity|]. split; [exact Hl|].
    destruct (prediction_periods_inv _ _ Hl)
      as [[-> ->]|[[-> ->]|[[-> ->]|[-> ->]]]]; cbn; tauto.
  - intros (period & -> & Hl & _). cbn.
    unfold _PREDICTION_PERIODS_getitem. cbn. now rewrite Hl.
Qed.

Lemma period_info_of_validity_witness :
  exists period,
    assoc "period" sample_params = Some (PStr period) /\
    _PREDICTION_PERIODS !! period = Some wday_info /\
    ((period = "wday" /\ valid wday_info * slice wday_info = 7 * 86400) \/
     (period = "day" /\ valid wday_info * slice wday_info = 28 * 86400) \/
     (period = "hour" /\ valid wday_info * slice wday_info = 86400) \/
     (period = "minute" /\ valid wday_info * slice wday_info = 86400)).
Proof.
  apply (proj1 (@period_info_of_validity utc sample_params wday_info)).
  reflexivity.
Defined.

(** ** The reference point *)

(** X18. The points of [_data_stats] fit the four columns: every point has
    four entries, and they are either all [None] or all values, so the average
    of a point is missing exactly when its deviation is. *)
Theorem data_stats_points_shape `{LM : Libm}
    (slices : list TimeSeriesValues)
    (descriptors : _DataStats) :
  _data_stats slices = Ok descriptors ->
  Forall (fun stat : _DataStat =>
            stat = [None; None; None; None] \/
            exists average lo hi sd,
              stat = [Some average; Some lo; Some hi; Some sd])
    descriptors.
Proof.
  intros Hok. apply List.Forall_forall. intros stat Hin.
  apply In_nth_error in Hin as (i & Hi).
  destruct (data_stats_entry _ _ _ _ Hok Hi) as (Hnone & Hsome).
  cbn zeta in *.
  destruct (defined_values (map (fun series => nth i series None) slices))
    as [|x rest].
  - left. now apply Hnone.
  - right. destruct (Hsome ltac:(discriminate)) as (lo & hi & sd & -> & _).
    now eexists _, lo, hi, sd.
Qed.

Lemma data_stats_points_shape_witness :
  exists descriptors,
    _data_stats [[Some 2%float; None]; [Some 4%float; None]] = Ok descriptors /\
    Forall (fun stat : _DataStat =>
              stat = [None; None; None; None] \/
              exists average lo hi sd,
                stat = [Some average; Some lo; Some hi; Some sd])
      descriptors.
Proof.
  destruct (_data_stats [[Some 2%float; None]; [Some 4%float; None]])
    as [descriptors|e] eqn:Hok; [|vm_compute in Hok; discriminate].
  exists descriptors. split; [reflexivity|].
  exact (data_stats_points_shape _ _ Hok).
Defined.

(** X19. With a summary at hand whose columns are those
    [_calculate_data_for_prediction] writes, [get_levels] takes the point at
    the index [int(rel_time / step)], returns its first entry as the reference
    and hands it, with the fourth entry as deviation and the levels of the
    parameters, to [estimate_levels]. *)
Theorem get_levels_reference `{LT : LocalTime} `{CO : Collaborators}
    `{LM : Libm}
    (hostname : HostName) (service_description : ServiceName)
    (dsname : MetricName) (params : _PredictionParameters)
    (cf : ConsolidationFunctionName) (levels_factor : float) (w : World)
    (period_info : _PeriodInfo) (timegroup : Timegroup) (rel_time : Seconds)
    (data_for_pred : _PredictionData) (w2 : World) (index : Z)
    (average lo hi sd : option float) :
  let now := py_int_Q (clock w) in
  let pred_dir := predictions_dir hostname service_description dsname in
  let pred_file := os_path_join pred_dir timegroup in
  period_info_of params = Ok period_info ->
  groupby period_info now = Ok (timegroup, rel_time) ->
  cached_prediction pred_file timegroup params (prepared pred_dir pred_file w)
  = (Ok (Some data_for_pred), w2) ->
  columns data_for_pred = ["average"; "min"; "max"; "stdev"] ->
  py_int_truediv rel_time (step data_for_pred) = Ok index ->
  py_index (points data_for_pred) index = Ok [average; lo; hi; sd] ->
  get_levels hostname service_description dsname params cf levels_factor w
  = (Ok (average,
         estimate_levels average sd (py_get params "levels_lower")
           (py_get params "levels_upper") (py_get params "levels_upper_min")
           levels_factor),
     w2).
Proof.
  cbn zeta. intros Hperiod Hgroup Hcached Hcolumns Hindex Hpoint.
  unfold get_levels. unfold_io.
  rewrite Hperiod, Hgroup. cbn [fs clock trace].
  unfold prepared in Hcached. rewrite Hcached, Hindex, Hpoint, Hcolumns.
  reflexivity.
Qed.

Lemma get_levels_reference_witness :
  let cached :=
    {| fs := fs (snd (get_levels "host" "CPU load" "load1" sample_params "MAX"
                        1%float (empty_world (inject_Z 1600000000))));
       clock := inject_Z 1600000000;
       trace := [] |} in
  fst (get_levels "host" "CPU load" "load1" sample_params "MAX" 1%float cached)
  = Ok (Some 100%float, tt).
Proof.
  intros cached.
  pose (hit := cached_prediction "/prediction/host/CPU load/load1/sunday"
                 "sunday" sample_params
                 (prepared "/prediction/host/CPU load/load1"
                    "/prediction/host/CPU load/load1/sunday" cached)).
  exact (f_equal fst (@get_levels_reference utc memory_store rounded_libm
            "host" "CPU load" "load1" sample_params "MAX" 1%float cached
            wday_info "sunday" 44800
            (match fst hit with
             | Ok (Some data) => data
             | _ => {| columns := []; points := []; num_points := 0;
                       data_twindow := []; step := 0 |}
             end)
            (snd hit) 12 (Some 100%float) (Some 100%float) (Some 100%float)
            (Some 0%float) eq_refl eq_refl
            (pair_of_fst _ _ ltac:(vm_compute; reflexivity))
            ltac:(vm_compute; reflexivity) ltac:(vm_compute; reflexivity)
            ltac:(vm_compute; reflexivity))).
Defined.

(** ** The accesses of the entry point *)

Section Accesses.
Context `{LT : LocalTime} `{CO : Collaborators} `{LM : Libm}.

Lemma cached_prediction_trace pred_file timegroup params w :
  let outcome := cached_prediction pred_file timegroup params w in
  (fst outcome = Ok None \/ exists e, fst outcome = Raise e) /\
  trace (snd outcome)
  = trace w ++ [EvRetrieve (pred_file ++ ".info") timegroup]
  \/
  (fst outcome = Ok None \/ exists data, fst outcome = Ok (Some data)) /\
  trace (snd outcome)
  = trace w ++ [EvRetrieve (pred_file ++ ".info") timegroup;
                EvRetrieve pred_file timegroup].
Proof.
  cbn zeta. unfold cached_prediction, mbind, io_bind.
  pose proof (is_prediction_up_to_date_world pred_file timegroup params w) as Hw.
  destruct (_is_prediction_up_to_date pred_file timegroup params w)
    as [[[|]|e] w1]; cbn [fst snd] in *; subst w1.
  - right. unfold io_retrieve_data, observe, observed. cbn [fst snd fs trace].
    split; [|now rewrite <- app_assoc].
    destruct (retrieve_data_for_prediction _ _ _) as [data|]; eauto.
  - left. split; [now left|reflexivity].
  - left. split; [right; now exists e|reflexivity].
Qed.

Lemma computed_prediction_trace hostname service_description dsname params cf
    now period_info timegroup pred_file w2 :
  let outcome :=
    computed_prediction hostname service_description dsname params cf now
      period_info timegroup pred_file w2 in
  (exists e, fst outcome = Raise e) /\
  trace (snd outcome) = trace w2 ++ [EvClean pred_file true]
  \/
  (exists data, fst outcome = Ok data) /\
  trace (snd outcome)
  = trace w2 ++ [EvClean pred_file true; EvWrite (pred_file ++ ".info");
                 EvWrite pred_file].
Proof.
  cbn zeta. unfold computed_prediction, _save_predictions. unfold_io.
  destruct (py_getitem params "horizon") as [horizon|]; [|left; eauto].
  destruct (horizon_seconds horizon) as [seconds|]; [|left; eauto].
  destruct (_time_slices _ _ _ _) as [time_windows|]; [|left; eauto].
  destruct (_calculate_data_for_prediction _ _) as [data|]; [|left; eauto].
  destruct (py_index time_windows 0) as [range|]; [|left; eauto].
  right. cbn [fst snd fs clock trace]. split; [eauto|].
  now rewrite <- !app_assoc.
Qed.

End Accesses.

(** X20. For parameters with a period of the table, the accesses [get_levels]
    makes to the store come in one order: it makes the directory, cleans,
    retrieves the metadata and retrieves the summary only after that; then
    it is done, or it cleans by force and writes after that, the metadata
    before the summary. No write comes before a forced clean. *)
Theorem get_levels_accesses `{LT : LocalTime} `{CO : Collaborators}
    `{LM : Libm}
    (hostname : HostName) (service_description : ServiceName)
    (dsname : MetricName) (params : _PredictionParameters)
    (cf : ConsolidationFunctionName) (levels_factor : float) (w : World)
    (period_info : _PeriodInfo) (timegroup : Timegroup) (rel_time : Seconds) :
  let now := py_int_Q (clock w) in
  let pred_dir := predictions_dir hostname service_description dsname in
  let pred_file := os_path_join pred_dir timegroup in
  period_info_of params = Ok period_info ->
  groupby period_info now = Ok (timegroup, rel_time) ->
  exists retrieved recomputed,
    trace (snd (get_levels hostname service_description dsname params cf
                  levels_factor w))
    = trace w
      ++ [EvMakedirs pred_dir; EvClean pred_file false;
          EvRetrieve (pred_file ++ ".info") timegroup]
      ++ retrieved ++ recomputed /\
    (retrieved = [] \/ retrieved = [EvRetrieve pred_file timegroup]) /\
    (recomputed = [] \/
     exists count,
       recomputed
       = EvClean pred_file true
         :: map EvWrite
              (firstn count [(pred_file ++ ".info")%string; pred_file])).
Proof.
  cbn zeta. intros Hperiod Hgroup.
  set (pred_dir := predictions_dir hostname service_description dsname).
  set (pred_file := os_path_join pred_dir timegroup).
  unfold get_levels. unfold_io.
  rewrite Hperiod, Hgroup. cbn [fs clock trace].
  fold pred_dir. fold pred_file.
  change {| fs := clean_prediction_files pred_file false (makedirs pred_dir (fs w));
            clock := clock w;
            trace := (trace w ++ [EvMakedirs pred_dir])
                     ++ [EvClean pred_file false] |}
    with (prepared pred_dir pred_file w).
  pose proof (cached_prediction_trace pred_file timegroup params
                (prepared pred_dir pred_file w)) as Hcached.
  cbn zeta in Hcached.
  destruct (cached_prediction pred_file timegroup params
              (prepared pred_dir pred_file w)) as [cached w2].
  cbn [fst snd prepared trace] in Hcached.
  assert (Htail : forall data w3,
    trace (snd (match py_int_truediv rel_time (step data) with
        | Ok a =>
            match py_index (points data) a with
            | Ok a0 =>
                match reference_getitem (columns data) a0 "average" with
                | Ok a1 =>
                    match reference_getitem (columns data) a0 "stdev" with
                    | Ok a2 =>
                        (Ok (a1,
                             estimate_levels a1 a2
                               (py_get params "levels_lower")
                               (py_get params "levels_upper")
                               (py_get params "levels_upper_min")
                               levels_factor), w3)
                    | Raise e => (Raise e, w3)
                    end
                | Raise e => (Raise e, w3)
                end
            | Raise e => (Raise e, w3)
            end
        | Raise e => (Raise e, w3)
        end)) = trace w3).
  { intros data w3.
    destruct (py_int_truediv _ _); [|reflexivity].
    destruct (py_index _ _); [|reflexivity].
    destruct (reference_getitem _ _ "average"); [|reflexivity].
    destruct (reference_getitem _ _ "stdev"); reflexivity. }
  destruct cached as [[data|]|e].
  - rewrite Htail.
    destruct Hcached as [([[=]|(e & [=])] & _)|(_ & Htrace)].
    exists [EvRetrieve pred_file timegroup], []. rewrite Htrace.
    rewrite <- !app_assoc. cbn [app]. auto.
  - pose proof (computed_prediction_trace hostname service_description dsname
                  params cf (py_int_Q (clock w)) period_info timegroup
                  pred_file w2) as Hcomputed.
    cbn zeta in Hcomputed.
    destruct (computed_prediction _ _ _ _ _ _ _ _ _ w2) as [[data|e] w3];
      cbn [fst snd] in Hcomputed.
    + rewrite Htail.
      destruct Hcomputed as [((e & [=]) & _)|(_ & Hw3)].
      destruct Hcached as [(_ & Hw2)|(_ & Hw2)]; rewrite Hw3, Hw2;
        [exists []|exists [EvRetrieve pred_file timegroup]];
        eexists; (split; [rewrite <- !app_assoc; cbn [app]; reflexivity|]);
        (split; [auto|right; first [now exists 2%nat|now exists 0%nat]]).
    + cbn [snd].
      destruct Hcomputed as [(_ & Hw3)|((data & [=]) & _)].
      destruct Hcached as [(_ & Hw2)|(_ & Hw2)]; rewrite Hw3, Hw2;
        [exists []|exists [EvRetrieve pred_file timegroup]];
        eexists; (split; [rewrite <- !app_assoc; cbn [app]; reflexivity|]);
        (split; [auto|right; first [now exists 2%nat|now exists 0%nat]]).
  - cbn [snd].
    destruct Hcached as [(_ & Htrace)|([[=]|(data & [=])] & _)].
    exists [], []. rewrite Htrace. rewrite <- !app_assoc. cbn [app]. auto.
Qed.

Lemma get_levels_accesses_witness :
  exists retrieved recomputed,
    trace (snd (get_levels "host" "CPU load" "load1" sample_params "MAX"
                  1%float (empty_world (inject_Z 1600000000))))
    = [] ++ [EvMakedirs "/prediction/host/CPU load/load1";
             EvClean "/prediction/host/CPU load/load1/sunday" false;
             EvRetrieve "/prediction/host/CPU load/load1/sunday.info" "sunday"]
         ++ retrieved ++ recomputed.
Proof.
  destruct (@get_levels_accesses utc memory_store rounded_libm
              "host" "CPU load" "load1" sample_params "MAX" 1%float (empty_world (inject_Z 1600000000))
              wday_info "sunday" 44800 eq_refl eq_refl)
    as (retrieved & recomputed & Htrace & _).
  exists retrieved, recomputed. exact Htrace.
Defined.
